(** * A shallow embedding of the smart-goal-planner backend (src/server.js and
    its earlier variant src/unnamed/part_000).

    The Express handlers are modelled as computations in a small
    state-and-exception monad over a world that holds the two Firestore
    collections ([users] and [goals]), the clock read by
    [new Date().toISOString()] and a log of every data-store call.

    Modelling choices:
    - a JS string is its list of UTF-16 code units ([jstr := list Z]);
    - JS numbers are integers ([Z]); floating point and NaN are not modelled;
    - arrays do not occur in the modelled values;
    - a Firestore document is its field map, kept in insertion order;
      a collection is the list of its documents in document-id order, the
      order in which Firestore returns query results; the query operator
      [==] compares values as Firestore does, ignoring the key order of maps;
    - [collection(c).doc(s)] resolves [s] as the client library does: the
      empty segments of [s.split('/')] are dropped, and a path that is empty,
      contains [//] or does not name a document is refused; the app writes
      no document below another, so a nested path names a missing document;
    - each request runs to its end before the next one starts: requests
      are not interleaved;
    - the data store answers every call (no transient network failures);
      the calls throw only where the Firestore API itself refuses its
      arguments (a refused document path, [undefined] as a field or query
      value, an update of a missing document);
    - the clock is a sequence: each [new Date().toISOString()] reads the
      next time of it. *)

From Stdlib Require Import ZArith List String Ascii Bool Lia.
Import ListNotations.
Open Scope Z_scope.

(** ** JS strings and values *)

Definition jstr := list Z.

(** An ASCII literal as a JS string. *)
Definition js (s : string) : jstr :=
  map (fun c => Z.of_nat (nat_of_ascii c)) (list_ascii_of_string s).

Fixpoint jstr_eqb (a b : jstr) : bool :=
  match a, b with
  | [], [] => true
  | x :: a', y :: b' => Z.eqb x y && jstr_eqb a' b'
  | _, _ => false
  end.

Definition is_high (c : Z) : bool := (55296 <=? c) && (c <? 56320).
Definition is_low (c : Z) : bool := (56320 <=? c) && (c <? 57344).

Local Set Warnings "-register-all".

Inductive jsval :=
| JUndef
| JNull
| JBool (b : bool)
| JNum (n : Z)
| JStr (s : jstr)
| JObj (fields : list (jstr * jsval)).

(** Structural equality, object fields compared in order. *)
Fixpoint jsval_eqb (a b : jsval) : bool :=
  match a, b with
  | JUndef, JUndef => true
  | JNull, JNull => true
  | JBool x, JBool y => Bool.eqb x y
  | JNum x, JNum y => Z.eqb x y
  | JStr x, JStr y => jstr_eqb x y
  | JObj xs, JObj ys =>
      (fix go (xs ys : list (jstr * jsval)) : bool :=
         match xs, ys with
         | [], [] => true
         | (k, v) :: xs', (k', v') :: ys' =>
             jstr_eqb k k' && jsval_eqb v v' && go xs' ys'
         | _, _ => false
         end) xs ys
  | _, _ => false
  end.

(** JS [===]: primitives compare by value; two objects read from the store
    or decoded from a token are distinct references. *)
Definition strict_eqb (a b : jsval) : bool :=
  match a with
  | JObj _ => false
  | _ => jsval_eqb a b
  end.

(** JS truthiness, used by [!x] and [x || d]. *)
Definition truthy (v : jsval) : bool :=
  match v with
  | JUndef | JNull => false
  | JBool b => b
  | JNum n => negb (Z.eqb n 0)
  | JStr s => negb (jstr_eqb s [])
  | JObj _ => true
  end.

(** [undefined] nowhere inside the value: what Firestore accepts as data. *)
Fixpoint defined_value (v : jsval) : bool :=
  match v with
  | JUndef => false
  | JObj fs =>
      (fix go (fs : list (jstr * jsval)) : bool :=
         match fs with
         | [] => true
         | (_, x) :: r => defined_value x && go r
         end) fs
  | _ => true
  end.

(** ** Objects, documents and collections *)

(** A JS object literal or a Firestore document: its fields in order. *)
Definition doc := list (jstr * jsval).

Fixpoint assoc {A} (k : jstr) (l : list (jstr * A)) : option A :=
  match l with
  | [] => None
  | (k', v) :: r => if jstr_eqb k k' then Some v else assoc k r
  end.

(** [o.k] on an object: [undefined] when the field is absent. *)
Definition field (d : doc) (k : jstr) : jsval :=
  match assoc k d with Some v => v | None => JUndef end.

(** [o.k = v]: an existing field keeps its place. *)
Fixpoint set_field (k : jstr) (v : jsval) (d : doc) : doc :=
  match d with
  | [] => [(k, v)]
  | (k', v') :: r =>
      if jstr_eqb k k' then (k', v) :: r else (k', v') :: set_field k v r
  end.

(** [v.k] on any value; [None] is the TypeError of [null.k] and
    [undefined.k]. *)
Definition get_prop (v : jsval) (k : jstr) : option jsval :=
  match v with
  | JUndef | JNull => None
  | JObj fs => Some (field fs k)
  | _ => Some JUndef
  end.

(** The request body after [express.json()]: an object. Destructuring
    [const { a, b } = req.body] reads [field body a]. *)
Definition body := doc.

Definition coll := list (jstr * doc).

Fixpoint id_ltb (a b : jstr) : bool :=
  match a, b with
  | [], [] => false
  | [], _ :: _ => true
  | _ :: _, [] => false
  | x :: a', y :: b' => Z.ltb x y || (Z.eqb x y && id_ltb a' b')
  end.

Fixpoint insert_by_id (id : jstr) (d : doc) (c : coll) : coll :=
  match c with
  | [] => [(id, d)]
  | (k, e) :: r =>
      if id_ltb id k then (id, d) :: c else (k, e) :: insert_by_id id d r
  end.

Definition remove_id (id : jstr) (c : coll) : coll :=
  filter (fun p => negb (jstr_eqb (fst p) id)) c.

Fixpoint update_id (id : jstr) (f : doc -> doc) (c : coll) : coll :=
  match c with
  | [] => []
  | (k, e) :: r =>
      if jstr_eqb k id then (k, f e) :: r else (k, e) :: update_id id f r
  end.

(** Firestore draws a random 20-character identifier for [add]; the model
    picks one longer than every identifier in use, so it is fresh. *)
Definition fresh_id (c : coll) : jstr :=
  repeat 97 (S (list_max (map (fun p => List.length (fst p)) c))).

(** ** The data store and the handlers' effects *)

Inductive cname := CUsers | CGoals.

(** The data-store calls, as the log records them. *)
Inductive dbop :=
| DGet (c : cname) (id : jstr)
| DQuery (c : cname) (conds : list (jstr * jsval))
| DAdd (c : cname) (id : jstr)
| DUpdate (c : cname) (id : jstr)
| DDelete (c : cname) (id : jstr)
| DCommit (c : cname) (ids : list jstr).

Record world := mkWorld {
  w_users : coll;
  w_goals : coll;
  w_now : nat -> jstr;   (** the next results of [new Date().toISOString()] *)
  w_log : list dbop
}.

Definition coll_of (c : cname) (w : world) : coll :=
  match c with CUsers => w_users w | CGoals => w_goals w end.

Definition set_coll (c : cname) (cl : coll) (w : world) : world :=
  match c with
  | CUsers => mkWorld cl (w_goals w) (w_now w) (w_log w)
  | CGoals => mkWorld (w_users w) cl (w_now w) (w_log w)
  end.

Definition log_op (o : dbop) (w : world) : world :=
  mkWorld (w_users w) (w_goals w) (w_now w) (w_log w ++ [o]).

(** The exceptions a handler can meet. *)
Inductive exn := ETypeError | ESyntaxError | EFirestore.

(** State and exceptions: [inl e] is a thrown [e]. *)
Definition M (A : Type) : Type := world -> (exn + A) * world.

Definition ret {A} (a : A) : M A := fun w => (inr a, w).

Definition bind {A B} (m : M A) (k : A -> M B) : M B :=
  fun w => match m w with
           | (inl e, w') => (inl e, w')
           | (inr a, w') => k a w'
           end.

Definition throw {A} (e : exn) : M A := fun w => (inl e, w).

(** [try { m } catch (err) { h(err) }] *)
Definition catch {A} (m : M A) (h : exn -> M A) : M A :=
  fun w => match m w with
           | (inl e, w') => h e w'
           | r => r
           end.

(** [new Date().toISOString()]: the first time of the clock; the clock moves
    on by one reading. *)
Definition now : M jstr :=
  fun w => (inr (w_now w O), mkWorld (w_users w) (w_goals w) (fun n => w_now w (S n)) (w_log w)).

Notation "x <- m ;; k" := (bind m (fun x => k))
  (at level 61, m at next level, right associativity).
Notation "m ;;; k" := (bind m (fun _ => k))
  (at level 61, right associativity).

(** [s.split(sep)] for a one-character separator. *)
Fixpoint split_on (sep : Z) (s : jstr) : list jstr :=
  match s with
  | [] => [[]]
  | c :: t =>
      if c =? sep then [] :: split_on sep t
      else match split_on sep t with
           | p :: ps => (c :: p) :: ps
           | [] => [[c]]
           end
  end.

Fixpoint has_double_slash (s : jstr) : bool :=
  match s with
  | a :: ((b :: _) as t) => ((a =? 47) && (b =? 47)) || has_double_slash t
  | _ => false
  end.

(** The segments [collection(c).doc(s)] appends to the collection's path:
    [validateResourcePath] refuses the empty string and [//], the empty
    segments are dropped, and the path must end at a document, that is hold
    an odd number of segments below the collection. *)
Definition doc_path (s : jstr) : option (list jstr) :=
  if jstr_eqb s [] || has_double_slash s then None
  else
    let segs := filter (fun p => negb (jstr_eqb p [])) (split_on 47 s) in
    if Nat.odd (List.length segs) then Some segs else None.

(** A path as the log records it. *)
Fixpoint path_name (p : list jstr) : jstr :=
  match p with
  | [] => []
  | [k] => k
  | k :: r => k ++ 47 :: path_name r
  end.

(** [collection(c).doc(v)]: a refused path, or a [v] that is not a string,
    throws. *)
Definition doc_ref (v : jsval) : M (list jstr) :=
  match v with
  | JStr s => match doc_path s with Some p => ret p | None => throw EFirestore end
  | _ => throw EFirestore
  end.

(** The document a path names: [[k]] is the document [k] of the
    collection; a nested path names no stored document. *)
Definition lookup_path (p : list jstr) (c : coll) : option doc :=
  match p with [k] => assoc k c | _ => None end.

(** The document of collection [c] that [collection(c).doc(s)] designates,
    if the path is accepted and the document exists. *)
Definition doc_at (c : coll) (s : jstr) : option doc :=
  match doc_path s with Some p => lookup_path p c | None => None end.

(** [ref.get()]: [None] is a snapshot with [exists === false]. *)
Definition fs_get (c : cname) (p : list jstr) : M (option doc) :=
  fun w => (inr (lookup_path p (coll_of c w)), log_op (DGet c (path_name p)) w).

(** *** Firestore's [==] *)

(** Strings are stored as UTF-8: a lone surrogate becomes U+FFFD. *)
Fixpoint usv (s : jstr) : jstr :=
  match s with
  | [] => []
  | c :: t =>
      if is_high c then
        match t with
        | c2 :: t2 => if is_low c2 then c :: c2 :: usv t2 else 65533 :: usv t
        | [] => [65533]
        end
      else if is_low c then 65533 :: usv t
      else c :: usv t
  end.

(** A field into a map kept sorted by key; an existing key keeps its value. *)
Fixpoint insert_key (k : jstr) (v : jsval) (l : list (jstr * jsval)) : list (jstr * jsval) :=
  match l with
  | [] => [(k, v)]
  | (k', v') :: r =>
      if jstr_eqb k k' then l
      else if id_ltb k k' then (k, v) :: l
      else (k', v') :: insert_key k v r
  end.

(** The value Firestore stores: strings as UTF-8, maps with their keys in
    order and each key once (the first one, which [field] reads). *)
Fixpoint fs_norm (v : jsval) : jsval :=
  match v with
  | JStr s => JStr (usv s)
  | JObj fs =>
      JObj (fold_left (fun acc kv => insert_key (fst kv) (snd kv) acc)
              ((fix go (fs : list (jstr * jsval)) : list (jstr * jsval) :=
                  match fs with
                  | [] => []
                  | (k, x) :: r => (usv k, fs_norm x) :: go r
                  end) fs) [])
  | _ => v
  end.

(** [a == b] in a query. *)
Definition fs_eqb (a b : jsval) : bool := jsval_eqb (fs_norm a) (fs_norm b).

Definition matches (conds : list (jstr * jsval)) (p : jstr * doc) : bool :=
  forallb (fun kv => fs_eqb (field (snd p) (fst kv)) (snd kv)) conds.

(** [collection(c).where(k1,'==',v1)....limit(n).get()]: [undefined] as a
    query value is refused. *)
Definition fs_where (c : cname) (conds : list (jstr * jsval)) (lim : option nat)
  : M coll :=
  if forallb (fun kv => defined_value (snd kv)) conds then
    fun w =>
      let r := filter (matches conds) (coll_of c w) in
      (inr (match lim with Some n => firstn n r | None => r end),
       log_op (DQuery c conds) w)
  else throw EFirestore.

(** [collection(c).get()] *)
Definition fs_all (c : cname) : M coll :=
  fun w => (inr (coll_of c w), log_op (DQuery c []) w).

(** [collection(c).add(d)]: [undefined] as data is refused. *)
Definition fs_add (c : cname) (d : doc) : M jstr :=
  if forallb (fun kv => defined_value (snd kv)) d then
    fun w =>
      let id := fresh_id (coll_of c w) in
      (inr id, log_op (DAdd c id) (set_coll c (insert_by_id id d (coll_of c w)) w))
  else throw EFirestore.

Definition merge (upd : doc) (d : doc) : doc :=
  fold_left (fun acc kv => set_field (fst kv) (snd kv) acc) upd d.

(** [ref.update(fields)]: the document must exist; the given fields are
    written, the others kept. *)
Definition fs_update (c : cname) (p : list jstr) (upd : doc) : M unit :=
  if forallb (fun kv => defined_value (snd kv)) upd then
    fun w =>
      match p with
      | [id] =>
          match assoc id (coll_of c w) with
          | None => (inl EFirestore, w)
          | Some _ =>
              (inr tt, log_op (DUpdate c id) (set_coll c (update_id id (merge upd) (coll_of c w)) w))
          end
      | _ => (inl EFirestore, w)
      end
  else throw EFirestore.

(** [ref.delete()]: deleting a missing document succeeds. *)
Definition fs_delete (c : cname) (p : list jstr) : M unit :=
  fun w =>
    match p with
    | [id] => (inr tt, log_op (DDelete c id) (set_coll c (remove_id id (coll_of c w)) w))
    | _ => (inr tt, log_op (DDelete c (path_name p)) w)
    end.

(** [batch.delete(ref)] for each id, then [batch.commit()]. *)
Definition fs_batch_delete (c : cname) (ids : list jstr) : M unit :=
  fun w =>
    (inr tt, log_op (DCommit c ids)
               (set_coll c (fold_left (fun cl id => remove_id id cl) ids (coll_of c w)) w)).

(** ** Responses *)

Inductive rbody :=
| RText (s : string)
| RJson (v : jsval)
| RJsonList (vs : list jsval).

Record response := mkResp { status : Z; resp_body : rbody }.

(** [res.status(n).send(s)] and [res.json(v)] *)
Definition send (n : Z) (s : string) : M response := ret (mkResp n (RText s)).
Definition json (v : jsval) : M response := ret (mkResp 200 (RJson v)).

(** ** The token codec: Buffer, base64 and JSON as Node implements them *)


(** [Buffer.from(s)]: UTF-8, a lone surrogate becoming U+FFFD. *)
Fixpoint utf8_encode (s : jstr) : list Z :=
  match s with
  | [] => []
  | c :: t =>
      if c <? 128 then c :: utf8_encode t
      else if c <? 2048 then
        [Z.lor 192 (Z.shiftr c 6); Z.lor 128 (Z.land c 63)] ++ utf8_encode t
      else if is_high c then
        match t with
        | c2 :: t2 =>
            if is_low c2 then
              let cp := 65536 + Z.shiftl (c - 55296) 10 + (c2 - 56320) in
              [Z.lor 240 (Z.shiftr cp 18); Z.lor 128 (Z.land (Z.shiftr cp 12) 63);
               Z.lor 128 (Z.land (Z.shiftr cp 6) 63); Z.lor 128 (Z.land cp 63)]
              ++ utf8_encode t2
            else [239; 191; 189] ++ utf8_encode t
        | [] => [239; 191; 189]
        end
      else if is_low c then [239; 191; 189] ++ utf8_encode t
      else
        [Z.lor 224 (Z.shiftr c 12); Z.lor 128 (Z.land (Z.shiftr c 6) 63);
         Z.lor 128 (Z.land c 63)] ++ utf8_encode t
  end.

Definition b64_char (v : Z) : Z :=
  if v <? 26 then 65 + v
  else if v <? 52 then 71 + v
  else if v <? 62 then v - 4
  else if v =? 62 then 43 else 47.

(** [buf.toString('base64')], with [=] padding. *)
Fixpoint b64_encode (bs : list Z) : jstr :=
  match bs with
  | a :: b :: c :: t =>
      let n := Z.lor (Z.shiftl a 16) (Z.lor (Z.shiftl b 8) c) in
      [b64_char (Z.shiftr n 18); b64_char (Z.land (Z.shiftr n 12) 63);
       b64_char (Z.land (Z.shiftr n 6) 63); b64_char (Z.land n 63)] ++ b64_encode t
  | [a; b] =>
      let n := Z.lor (Z.shiftl a 16) (Z.shiftl b 8) in
      [b64_char (Z.shiftr n 18); b64_char (Z.land (Z.shiftr n 12) 63);
       b64_char (Z.land (Z.shiftr n 6) 63); 61]
  | [a] =>
      let n := Z.shiftl a 16 in
      [b64_char (Z.shiftr n 18); b64_char (Z.land (Z.shiftr n 12) 63); 61; 61]
  | [] => []
  end.

(** Node's lenient base64 alphabet (also the URL-safe [-] and [_]). *)
Definition unb64 (c : Z) : option Z :=
  if (65 <=? c) && (c <=? 90) then Some (c - 65)
  else if (97 <=? c) && (c <=? 122) then Some (c - 71)
  else if (48 <=? c) && (c <=? 57) then Some (c + 4)
  else if (c =? 43) || (c =? 45) then Some 62
  else if (c =? 47) || (c =? 95) then Some 63
  else None.

(** Decoding skips characters outside the alphabet and stops at [=]. *)
Fixpoint sextets (s : jstr) : list Z :=
  match s with
  | [] => []
  | c :: t =>
      if c =? 61 then []
      else match unb64 c with Some v => v :: sextets t | None => sextets t end
  end.

Fixpoint sextets_to_bytes (vs : list Z) : list Z :=
  match vs with
  | a :: b :: c :: d :: t =>
      [Z.lor (Z.shiftl a 2) (Z.shiftr b 4);
       Z.lor (Z.shiftl (Z.land b 15) 4) (Z.shiftr c 2);
       Z.lor (Z.shiftl (Z.land c 3) 6) d] ++ sextets_to_bytes t
  | [a; b; c] =>
      [Z.lor (Z.shiftl a 2) (Z.shiftr b 4);
       Z.lor (Z.shiftl (Z.land b 15) 4) (Z.shiftr c 2)]
  | [a; b] => [Z.lor (Z.shiftl a 2) (Z.shiftr b 4)]
  | _ => []
  end.

(** [Buffer.from(s, 'base64')] *)
Definition b64_decode (s : jstr) : list Z := sextets_to_bytes (sextets s).

(** [buf.toString('ascii')]: the high bit of each byte is cleared. *)
Definition ascii_decode (bs : list Z) : jstr := map (fun b => Z.land b 127) bs.

(** *** JSON.stringify *)

Definition hex_digit (n : Z) : Z := if n <? 10 then 48 + n else 87 + n.

Definition u_escape (c : Z) : jstr :=
  [92; 117; hex_digit (Z.shiftr c 12); hex_digit (Z.land (Z.shiftr c 8) 15);
   hex_digit (Z.land (Z.shiftr c 4) 15); hex_digit (Z.land c 15)].

Definition quote_unit (c : Z) : jstr :=
  if c =? 34 then [92; 34]
  else if c =? 92 then [92; 92]
  else if c =? 8 then [92; 98]
  else if c =? 12 then [92; 102]
  else if c =? 10 then [92; 110]
  else if c =? 13 then [92; 114]
  else if c =? 9 then [92; 116]
  else if c <? 32 then u_escape c
  else [c].

(** The body of a JSON string literal; a lone surrogate is escaped. *)
Fixpoint quote_units (s : jstr) : jstr :=
  match s with
  | [] => []
  | c :: t =>
      if is_high c then
        match t with
        | c2 :: t2 =>
            if is_low c2 then c :: c2 :: quote_units t2
            else u_escape c ++ quote_units t
        | [] => u_escape c
        end
      else if is_low c then u_escape c ++ quote_units t
      else quote_unit c ++ quote_units t
  end.

Definition quote (s : jstr) : jstr := 34 :: quote_units s ++ [34].

Fixpoint digits_rev (fuel : nat) (n : Z) : jstr :=
  match fuel with
  | O => []
  | S f => if n <? 10 then [48 + n] else (48 + n mod 10) :: digits_rev f (n / 10)
  end.

Definition nat_text (n : Z) : jstr :=
  rev (digits_rev (S (Z.to_nat (Z.log2 n))) n).

Definition num_text (n : Z) : jstr :=
  if n <? 0 then 45 :: nat_text (- n) else nat_text n.

(** [JSON.stringify(v)]; [None] is its [undefined] result, and an object
    field whose value is [undefined] is left out. *)
Fixpoint stringify (v : jsval) : option jstr :=
  match v with
  | JUndef => None
  | JNull => Some (js "null")
  | JBool true => Some (js "true")
  | JBool false => Some (js "false")
  | JNum n => Some (num_text n)
  | JStr s => Some (quote s)
  | JObj fs =>
      Some (123 ::
        (fix members (fs : list (jstr * jsval)) (first : bool) : jstr :=
           match fs with
           | [] => [125]
           | (k, x) :: r =>
               match stringify x with
               | None => members r first
               | Some t =>
                   (if first then [] else [44]) ++ quote k ++ 58 :: t ++ members r false
               end
           end) fs true)
  end.

(** *** JSON.parse

    A parser for JSON texts whose values are objects, strings, integers,
    booleans and [null]; arrays, fractions and exponents are outside the
    model and are refused. [None] is the SyntaxError [JSON.parse] throws.
    A repeated key keeps its first place and its last value, as in JS. *)

Definition is_ws (c : Z) : bool := (c =? 32) || (c =? 9) || (c =? 10) || (c =? 13).

Fixpoint skip_ws (s : jstr) : jstr :=
  match s with
  | c :: t => if is_ws c then skip_ws t else s
  | [] => []
  end.

Definition unhex (c : Z) : option Z :=
  if (48 <=? c) && (c <=? 57) then Some (c - 48)
  else if (97 <=? c) && (c <=? 102) then Some (c - 87)
  else if (65 <=? c) && (c <=? 70) then Some (c - 55)
  else None.

Definition simple_escape (e : Z) : option Z :=
  if e =? 34 then Some 34
  else if e =? 92 then Some 92
  else if e =? 47 then Some 47
  else if e =? 98 then Some 8
  else if e =? 102 then Some 12
  else if e =? 110 then Some 10
  else if e =? 114 then Some 13
  else if e =? 116 then Some 9
  else None.

(** The rest of a string literal after its opening quote. *)
Fixpoint parse_str (s : jstr) : option (jstr * jstr) :=
  match s with
  | [] => None
  | c :: t =>
      if c =? 34 then Some ([], t)
      else if c =? 92 then
        match t with
        | [] => None
        | e :: t' =>
            if e =? 117 then
              match t' with
              | h1 :: h2 :: h3 :: h4 :: t'' =>
                  match unhex h1, unhex h2, unhex h3, unhex h4 with
                  | Some a, Some b, Some c', Some d =>
                      match parse_str t'' with
                      | Some (r, rest) => Some (a * 4096 + b * 256 + c' * 16 + d :: r, rest)
                      | None => None
                      end
                  | _, _, _, _ => None
                  end
              | _ => None
              end
            else
              match simple_escape e, parse_str t' with
              | Some u, Some (r, rest) => Some (u :: r, rest)
              | _, _ => None
              end
        end
      else if c <? 32 then None
      else
        match parse_str t with
        | Some (r, rest) => Some (c :: r, rest)
        | None => None
        end
  end.

Definition is_digit (c : Z) : bool := (48 <=? c) && (c <=? 57).

Fixpoint parse_digits (s : jstr) (acc : Z) : Z * jstr :=
  match s with
  | c :: t => if is_digit c then parse_digits t (acc * 10 + (c - 48)) else (acc, s)
  | [] => (acc, [])
  end.

Definition parse_nat (s : jstr) : option (Z * jstr) :=
  match s with
  | c :: t =>
      if c =? 48 then Some (0, t)
      else if is_digit c then Some (parse_digits t (c - 48))
      else None
  | [] => None
  end.

Definition parse_num (s : jstr) : option (Z * jstr) :=
  let r := match s with
           | c :: t =>
               if c =? 45 then
                 match parse_nat t with Some (n, rest) => Some (- n, rest) | None => None end
               else parse_nat s
           | [] => None
           end in
  match r with
  | Some (n, c :: rest) =>
      if (c =? 46) || (c =? 101) || (c =? 69) then None else Some (n, c :: rest)
  | r => r
  end.

Fixpoint strip_prefix (p s : jstr) : option jstr :=
  match p, s with
  | [], _ => Some s
  | x :: p', y :: s' => if x =? y then strip_prefix p' s' else None
  | _ :: _, [] => None
  end.

Fixpoint parse_value (fuel : nat) (s : jstr) : option (jsval * jstr) :=
  match fuel with
  | O => None
  | S f =>
      match skip_ws s with
      | [] => None
      | c :: t =>
          if c =? 34 then
            match parse_str t with Some (x, r) => Some (JStr x, r) | None => None end
          else if c =? 123 then
            match skip_ws t with
            | c' :: t' =>
                if c' =? 125 then Some (JObj [], t') else parse_members f [] (c' :: t')
            | [] => None
            end
          else if c =? 110 then
            match strip_prefix (js "ull") t with Some r => Some (JNull, r) | None => None end
          else if c =? 116 then
            match strip_prefix (js "rue") t with Some r => Some (JBool true, r) | None => None end
          else if c =? 102 then
            match strip_prefix (js "alse") t with Some r => Some (JBool false, r) | None => None end
          else
            match parse_num (c :: t) with Some (n, r) => Some (JNum n, r) | None => None end
      end
  end
with parse_members (fuel : nat) (acc : doc) (s : jstr) : option (jsval * jstr) :=
  match fuel with
  | O => None
  | S f =>
      match skip_ws s with
      | c :: t =>
          if c =? 34 then
            match parse_str t with
            | Some (k, r) =>
                match skip_ws r with
                | c2 :: r2 =>
                    if c2 =? 58 then
                      match parse_value f r2 with
                      | Some (v, r3) =>
                          let acc' := set_field k v acc in
                          match skip_ws r3 with
                          | c3 :: r4 =>
                              if c3 =? 44 then parse_members f acc' r4
                              else if c3 =? 125 then Some (JObj acc', r4)
                              else None
                          | [] => None
                          end
                      | None => None
                      end
                    else None
                | [] => None
                end
            | None => None
            end
          else None
      | [] => None
      end
  end.

(** Each call consumes a character first, so [length s + 1] calls are
    enough. *)
Definition json_parse (s : jstr) : option jsval :=
  match parse_value (S (List.length s)) s with
  | Some (v, r) => if jstr_eqb (skip_ws r) [] then Some v else None
  | None => None
  end.

(** ** The token: [createToken] and the decoding in [verifyToken] *)

Definition json_text (v : jsval) : jstr :=
  match stringify v with Some t => t | None => [] end.

(** [createToken = (user) => Buffer.from(JSON.stringify({ id: user.id,
    username: user.username, role: user.role })).toString('base64')] *)
Definition createToken (user : doc) : jstr :=
  b64_encode (utf8_encode (json_text
    (JObj [(js "id", field user (js "id"));
           (js "username", field user (js "username"));
           (js "role", field user (js "role"))]))).

(** [JSON.parse(Buffer.from(token, 'base64').toString('ascii'))] *)
Definition decode_token (token : jstr) : option jsval :=
  json_parse (ascii_decode (b64_decode token)).

(** ** The authentication gate *)

(** [authHeader.split(' ')[1]] *)
Definition token_of_header (h : jstr) : jsval :=
  match nth_error (split_on 32 h) 1 with Some t => JStr t | None => JUndef end.

(** [verifyToken], for any decoding of the token; [inl] is the response sent
    by the gate, [inr decoded] is [req.user = decoded; next()]. The header
    [req.headers['authorization']] is a string or absent. *)
Definition verifyToken_with (decode : jstr -> option jsval) (authHeader : option jstr)
  : M (response + jsval) :=
  let no_token := r <- send 401 "No token provided";; ret (inl r) in
  match authHeader with
  | None => no_token
  | Some h =>
      if jstr_eqb h [] then no_token else
      let token := token_of_header h in
      catch
        (tok <- (match token with JStr t => ret t | _ => throw ETypeError end);;
         decoded <- (match decode tok with Some v => ret v | None => throw ESyntaxError end);;
         idv <- (match get_prop decoded (js "id") with Some v => ret v | None => throw ETypeError end);;
         userRef <- doc_ref idv;;
         d <- fs_get CUsers userRef;;
         match d with
         | None => r <- send 401 "Invalid token: User does not exist";; ret (inl r)
         | Some _ => ret (inr decoded)
         end)
        (fun _ => r <- send 401 "Invalid token";; ret (inl r))
  end.

Definition verifyToken := verifyToken_with decode_token.

(** A route guarded by [verifyToken]: the handler runs on [req.user]. *)
Definition protect_with (decode : jstr -> option jsval) (authHeader : option jstr)
  (handler : jsval -> M response) : M response :=
  r <- verifyToken_with decode authHeader;;
  match r with
  | inl resp => ret resp
  | inr user => handler user
  end.

Definition protect := protect_with decode_token.

(** [checkAdmin] *)
Definition checkAdmin (user : jsval) (next : M response) : M response :=
  if truthy user &&
     match get_prop user (js "role") with
     | Some r => strict_eqb r (JStr (js "admin"))
     | None => false
     end
  then next
  else send 403 "Forbidden: Insufficient permissions".

(** [req.user.id] outside a [try]: a TypeError there is not caught. *)
Definition user_id (user : jsval) : M jsval :=
  match get_prop user (js "id") with Some v => ret v | None => throw ETypeError end.

(** ** The routes of src/server.js *)

Module Server.

(** POST /register *)
Definition post_register (b : body) : M response :=
  let username := field b (js "username") in
  let password := field b (js "password") in
  let role := field b (js "role") in
  if negb (truthy username) || negb (truthy password) then
    send 400 "Username and password are required."
  else
    catch
      (usersSnapshot <- fs_where CUsers [(js "username", username)] (Some 1%nat);;
       match usersSnapshot with
       | _ :: _ => send 409 "Username already exists."
       | [] =>
           let newUser := [(js "username", username); (js "password", password);
                           (js "role", if truthy role then role else JStr (js "user"))] in
           _ <- fs_add CUsers newUser;;
           send 201 "User registered successfully."
       end)
      (fun _ => send 500 "Server error during registration.").

(** POST /login *)
Definition post_login (b : body) : M response :=
  let username := field b (js "username") in
  let password := field b (js "password") in
  catch
    (usersSnapshot <- fs_where CUsers [(js "username", username); (js "password", password)]
                        (Some 1%nat);;
     match usersSnapshot with
     | [] => send 401 "Invalid credentials"
     | (id, data) :: _ =>
         let user := [(js "id", JStr id); (js "username", field data (js "username"));
                      (js "role", field data (js "role"))] in
         let token := createToken user in
         json (JObj [(js "message", JStr (js "Login successful")); (js "token", JStr token)])
     end)
    (fun _ => send 500 "Server error during login.").

(** DELETE /users/:id, after [verifyToken] and [checkAdmin] *)
Definition delete_users_id (userIdToDelete : jstr) : M response :=
  catch
    (goalsToDelete <- fs_where CGoals [(js "userId", JStr userIdToDelete)] None;;
     fs_batch_delete CGoals (map fst goalsToDelete);;;
     userRef <- doc_ref (JStr userIdToDelete);;
     fs_delete CUsers userRef;;;
     send 200 "User and associated goals deleted successfully.")
    (fun _ => send 500 "Server error deleting user.").


(** POST /goals, after [verifyToken] *)
Definition post_goals (user : jsval) (b : body) : M response :=
  let name := field b (js "name") in
  let targetAmount := field b (js "targetAmount") in
  let savedAmount := field b (js "savedAmount") in
  let category := field b (js "category") in
  userId <- user_id user;;
  if negb (truthy name) || negb (truthy targetAmount) || negb (truthy savedAmount)
     || negb (truthy category) then
    send 400 "All goal fields are required."
  else
    catch
      (createdAt <- now;;
       updatedAt <- now;;
       let newGoal := [(js "name", name); (js "targetAmount", targetAmount);
                       (js "savedAmount", savedAmount); (js "category", category);
                       (js "userId", userId); (js "createdAt", JStr createdAt);
                       (js "updatedAt", JStr updatedAt)] in
       id <- fs_add CGoals newGoal;;
       ret (mkResp 201 (RJson (JObj (merge newGoal [(js "id", JStr id)])))))
      (fun _ => send 500 "Server error creating goal.").

(** [{ id: doc.id, ...doc.data() }] *)
Definition render (p : jstr * doc) : jsval := JObj (merge (snd p) [(js "id", JStr (fst p))]).

(** GET /goals, after [verifyToken] *)
Definition get_goals (user : jsval) : M response :=
  catch
    (uid <- user_id user;;
     goalsSnapshot <- fs_where CGoals [(js "userId", uid)] None;;
     ret (mkResp 200 (RJsonList (map render goalsSnapshot))))
    (fun _ => send 500 "Server error fetching goals.").

(** PUT /goals/:id, after [verifyToken] *)
Definition put_goals_id (user : jsval) (goalId : jstr) (b : body) : M response :=
  userId <- user_id user;;
  let name := field b (js "name") in
  let targetAmount := field b (js "targetAmount") in
  let savedAmount := field b (js "savedAmount") in
  let category := field b (js "category") in
  catch
    (goalRef <- doc_ref (JStr goalId);;
     goalDoc <- fs_get CGoals goalRef;;
     match goalDoc with
     | Some data =>
         if strict_eqb (field data (js "userId")) userId then
           updatedAt <- now;;
           let updatedGoal := [(js "name", name); (js "targetAmount", targetAmount);
                               (js "savedAmount", savedAmount); (js "category", category);
                               (js "updatedAt", JStr updatedAt)] in
           fs_update CGoals goalRef updatedGoal;;;
           send 200 "Goal updated successfully."
         else send 403 "Forbidden: You can only update your own goals."
     | None => send 403 "Forbidden: You can only update your own goals."
     end)
    (fun _ => send 500 "Server error updating goal.").

(** DELETE /goals/:id, after [verifyToken] *)
Definition delete_goals_id (user : jsval) (goalId : jstr) : M response :=
  userId <- user_id user;;
  catch
    (goalRef <- doc_ref (JStr goalId);;
     goalDoc <- fs_get CGoals goalRef;;
     match goalDoc with
     | Some data =>
         if strict_eqb (field data (js "userId")) userId then
           fs_delete CGoals goalRef;;;
           send 200 "Goal deleted successfully."
         else send 403 "Forbidden: You can only delete your own goals."
     | None => send 403 "Forbidden: You can only delete your own goals."
     end)
    (fun _ => send 500 "Server error deleting goal.").

End Server.

(** ** The routes of src/unnamed/part_000 that differ *)

Module Part000.

(** GET /goals, after [verifyToken] *)
Definition get_goals (user : jsval) : M response :=
  catch
    (goalsSnapshot <- fs_all CGoals;;
     ret (mkResp 200 (RJsonList (map Server.render goalsSnapshot))))
    (fun _ => send 500 "Server error fetching goals.").

(** [{ id: doc.id, username: doc.data().username, role: doc.data().role }] *)
Definition user_entry (p : jstr * doc) : jsval :=
  JObj [(js "id", JStr (fst p)); (js "username", field (snd p) (js "username"));
        (js "role", field (snd p) (js "role"))].

(** GET /users, after [verifyToken] and [checkAdmin] *)
Definition get_users : M response :=
  catch
    (usersSnapshot <- fs_all CUsers;;
     ret (mkResp 200 (RJsonList (map user_entry usersSnapshot))))
    (fun _ => send 500 "Server error fetching users.").

Definition route_get_users (decode : jstr -> option jsval) (authHeader : option jstr)
  : M response :=
  protect_with decode authHeader (fun user => checkAdmin user get_users).

End Part000.

(** * Properties *)

(** ** General lemmas *)

Lemma jstr_eqb_eq : forall a b, jstr_eqb a b = true <-> a = b.
Proof.
  induction a as [|x a IH]; intros [|y b]; simpl; try (split; congruence).
  rewrite andb_true_iff, Z.eqb_eq, IH. split.
  - intros [-> ->]. reflexivity.
  - intros H. injection H. auto.
Qed.

Lemma jstr_eqb_refl : forall a, jstr_eqb a a = true.
Proof. intros a. apply jstr_eqb_eq. reflexivity. Qed.

Lemma jstr_eqb_neq : forall a b, a <> b -> jstr_eqb a b = false.
Proof.
  intros a b H. destruct (jstr_eqb a b) eqn:E; [|reflexivity].
  apply jstr_eqb_eq in E. contradiction.
Qed.

Lemma jsval_eqb_refl : forall v, jsval_eqb v v = true.
Proof.
  fix IH 1. intros [| | b | n | s | fs]; simpl.
  - reflexivity.
  - reflexivity.
  - apply eqb_reflx.
  - apply Z.eqb_refl.
  - apply jstr_eqb_refl.
  - revert fs. fix IHl 1. intros [|[k x] r]; [reflexivity|].
    rewrite jstr_eqb_refl, IH, IHl. reflexivity.
Qed.

Lemma fs_eqb_refl : forall v, fs_eqb v v = true.
Proof. intros v. unfold fs_eqb. apply jsval_eqb_refl. Qed.

Lemma field_set_field_other : forall d k v k',
  k' <> k -> field (set_field k v d) k' = field d k'.
Proof.
  unfold field. induction d as [|[k0 v0] d IH]; intros k v k' Hne; simpl.
  - rewrite jstr_eqb_neq by exact Hne. reflexivity.
  - destruct (jstr_eqb k k0) eqn:E1.
    + apply jstr_eqb_eq in E1. subst k0. simpl.
      rewrite jstr_eqb_neq by exact Hne. reflexivity.
    + simpl. destruct (jstr_eqb k' k0); [reflexivity|]. apply IH. exact Hne.
Qed.

(** Fields not written by [merge] keep their value. *)
Lemma field_merge_other : forall upd d k,
  ~ In k (map fst upd) -> field (merge upd d) k = field d k.
Proof.
  unfold merge. induction upd as [|[k0 v0] upd IH]; intros d k Hk; simpl in *.
  - reflexivity.
  - rewrite IH by tauto. apply field_set_field_other. intros ->. tauto.
Qed.

Lemma assoc_update_id_same : forall id f c,
  assoc id (update_id id f c) = option_map f (assoc id c).
Proof.
  induction c as [|[k e] c IH]; simpl; [reflexivity|].
  destruct (jstr_eqb k id) eqn:E.
  - apply jstr_eqb_eq in E. subst k. simpl. rewrite jstr_eqb_refl. reflexivity.
  - simpl. destruct (jstr_eqb id k) eqn:E2.
    + apply jstr_eqb_eq in E2. subst k. rewrite jstr_eqb_refl in E. discriminate.
    + exact IH.
Qed.

Lemma assoc_update_id_other : forall id id' f c,
  id' <> id -> assoc id' (update_id id f c) = assoc id' c.
Proof.
  induction c as [|[k e] c IH]; intros Hne; simpl; [reflexivity|].
  destruct (jstr_eqb k id) eqn:E.
  - apply jstr_eqb_eq in E. subst k. simpl.
    rewrite jstr_eqb_neq by exact Hne. reflexivity.
  - simpl. destruct (jstr_eqb id' k); [reflexivity|]. apply IH. exact Hne.
Qed.

Lemma assoc_remove_id_same : forall id c, assoc id (remove_id id c) = None.
Proof.
  unfold remove_id. induction c as [|[k e] c IH]; simpl; [reflexivity|].
  destruct (jstr_eqb k id) eqn:E; simpl; [exact IH|].
  destruct (jstr_eqb id k) eqn:E2; [|exact IH].
  apply jstr_eqb_eq in E2. subst k. rewrite jstr_eqb_refl in E. discriminate.
Qed.


Lemma In_insert_by_id : forall id d c, In (id, d) (insert_by_id id d c).
Proof.
  induction c as [|[k e] c IH]; simpl; [auto|].
  destruct (id_ltb id k); simpl; auto.
Qed.


Lemma split_on_no_sep : forall sep s, ~ In sep s -> split_on sep s = [s].
Proof.
  intros sep. induction s as [|c s IH]; intros H; [reflexivity|].
  cbn [split_on]. rewrite (proj2 (Z.eqb_neq c sep)) by (intros ->; apply H; left; reflexivity).
  rewrite IH by (intros Hi; apply H; right; exact Hi). reflexivity.
Qed.

Lemma has_double_slash_no_slash : forall s, ~ In 47 s -> has_double_slash s = false.
Proof.
  induction s as [|a t IH]; intros H; [reflexivity|].
  destruct t as [|b t']; [reflexivity|].
  cbn [has_double_slash].
  rewrite (proj2 (Z.eqb_neq a 47)) by (intros ->; apply H; left; reflexivity).
  apply IH. intros Hi. apply H. right. exact Hi.
Qed.

(** An identifier with no ['/'] designates the document of that name. *)
Lemma doc_path_simple : forall s, s <> [] -> ~ In 47 s -> doc_path s = Some [s].
Proof.
  intros s Hne Hs. unfold doc_path.
  rewrite (jstr_eqb_neq _ _ Hne), (has_double_slash_no_slash _ Hs), (split_on_no_sep _ _ Hs).
  cbn [orb filter]. rewrite (jstr_eqb_neq _ _ Hne). reflexivity.
Qed.


(** ** C3: no authorization header *)

(** C3. A request to any route guarded by [verifyToken] that carries no
    [Authorization] header is answered 401, and the world is left as it
    was: no data-store call is made and no state changes. *)
Theorem protect_no_header_401 : forall decode handler w,
  protect_with decode None handler w =
    (inr (mkResp 401 (RText "No token provided")), w).
Proof. intros decode handler w. reflexivity. Qed.

(** ** C4: a decodable token naming a deleted user *)

(** C4. For a request whose bearer token decodes (by any decoding) to a value
    whose [id] is a string, where [collection('users').doc(id)] designates no
    stored user (the path is refused, or the document it resolves to is
    absent), the guarded route answers 401, the collections are unchanged,
    and the downstream handler is never run: the outcome is the same
    whatever the handler. *)
Theorem protect_deleted_user_401 :
  forall decode h handler w tok decoded i,
    token_of_header h = JStr tok ->
    decode tok = Some decoded ->
    get_prop decoded (js "id") = Some (JStr i) ->
    doc_at (w_users w) i = None ->
    exists r w',
      protect_with decode (Some h) handler w = (inr r, w') /\
      status r = 401 /\ w_users w' = w_users w /\ w_goals w' = w_goals w /\
      (forall handler', protect_with decode (Some h) handler' w =
                        protect_with decode (Some h) handler w).
Proof.
  intros decode h handler w tok decoded i Htok Hdec Hid Hnone.
  assert (Hh : jstr_eqb h [] = false) by (destruct h; [discriminate Htok | reflexivity]).
  unfold protect_with, verifyToken_with, bind, catch.
  rewrite Hh, Htok. cbv beta iota delta [ret throw].
  rewrite Hdec. cbv beta iota. rewrite Hid. cbv beta iota. unfold doc_ref.
  unfold doc_at in Hnone. destruct (doc_path i) as [p|].
  - cbv beta iota delta [ret throw fs_get coll_of]. rewrite Hnone.
    do 2 eexists. split; [reflexivity|]. repeat split; reflexivity.
  - do 2 eexists. split; [reflexivity|]. repeat split; reflexivity.
Qed.

(** A concrete run: alice's token, presented after alice was deleted. *)
Definition alice : doc :=
  [(js "id", JStr (js "u1")); (js "username", JStr (js "alice")); (js "role", JStr (js "user"))].

Definition t0 : jstr := js "2026-01-01T00:00:00.000Z".

(** A clock that reads [t0] every time. *)
Definition clock : nat -> jstr := fun _ => t0.

Definition w_empty : world := mkWorld [] [] clock [].

(** GET /verify *)
Definition get_verify (user : jsval) : M response :=
  json (JObj [(js "message", JStr (js "Token is valid")); (js "user", user)]).

Lemma protect_deleted_user_401_witness :
  exists r w',
    protect (Some (js "Bearer " ++ createToken alice)) get_verify w_empty = (inr r, w') /\
    status r = 401 /\ w_users w' = w_users w_empty /\ w_goals w' = w_goals w_empty /\
    (forall handler', protect (Some (js "Bearer " ++ createToken alice)) handler' w_empty =
                      protect (Some (js "Bearer " ++ createToken alice)) get_verify w_empty).
Proof.
  apply (protect_deleted_user_401 decode_token _ get_verify w_empty
           (createToken alice) (JObj alice) (js "u1")); vm_compute; reflexivity.
Defined.

(** ** C9: POST /goals refuses falsy fields *)

(** C9. For an authenticated caller, POST /goals with a falsy [name],
    [targetAmount], [savedAmount] or [category] (absent, [null], [false], [0]
    or the empty string) is answered 400 and the world is unchanged: no goal
    is created. In particular a goal with [savedAmount] 0 cannot be created. *)
Theorem post_goals_falsy_400 : forall user uid b w,
  get_prop user (js "id") = Some uid ->
  truthy (field b (js "name")) = false \/ truthy (field b (js "targetAmount")) = false \/
  truthy (field b (js "savedAmount")) = false \/ truthy (field b (js "category")) = false ->
  Server.post_goals user b w = (inr (mkResp 400 (RText "All goal fields are required.")), w).
Proof.
  intros user uid b w Huid Hf.
  unfold Server.post_goals, bind, user_id. rewrite Huid. cbv beta iota delta [ret].
  destruct Hf as [H|[H|[H|H]]]; rewrite H; simpl orb;
    repeat rewrite orb_true_r; reflexivity.
Qed.

Definition goal_body_zero_saved : body :=
  [(js "name", JStr (js "Car")); (js "targetAmount", JNum 5000); (js "savedAmount", JNum 0);
   (js "category", JStr (js "Travel"))].

Lemma post_goals_falsy_400_witness :
  Server.post_goals (JObj alice) goal_body_zero_saved w_empty =
    (inr (mkResp 400 (RText "All goal fields are required.")), w_empty).
Proof.
  apply (post_goals_falsy_400 (JObj alice) (JStr (js "u1"))).
  - reflexivity.
  - right. right. left. reflexivity.
Defined.

(** ** C10: PUT /goals/:id writes five fields only *)

Definition put_written_fields : list jstr :=
  [js "name"; js "targetAmount"; js "savedAmount"; js "category"; js "updatedAt"].

Ltac run_simpl H :=
  cbn beta iota in H; cbn [coll_of log_op w_goals w_now set_coll w_users w_log] in H.

Ltac not_200 H := injection H; intros; subst; discriminate.

(** C10. After a PUT /goals/:id answered 200, [collection('goals').doc(id)]
    resolved to a goal [k] of the collection ([id] itself, or [id] without
    its empty segments, as [g1] for [g1/]); that goal exists before and
    after, its [userId] and [createdAt], and every field other than [name],
    [targetAmount], [savedAmount], [category] and [updatedAt], are unchanged;
    no other goal and no user changes. *)
Theorem put_goals_id_frame : forall user gid b w r w',
  Server.put_goals_id user gid b w = (inr r, w') -> status r = 200 ->
  exists k d d',
    doc_path gid = Some [k] /\
    assoc k (w_goals w) = Some d /\ assoc k (w_goals w') = Some d' /\
    field d' (js "userId") = field d (js "userId") /\
    field d' (js "createdAt") = field d (js "createdAt") /\
    (forall f, ~ In f put_written_fields -> field d' f = field d f) /\
    (forall id', id' <> k -> assoc id' (w_goals w') = assoc id' (w_goals w)) /\
    w_users w' = w_users w.
Proof.
  intros user gid b w r w' H Hs.
  unfold Server.put_goals_id, user_id, bind, catch, doc_ref, fs_get, fs_update,
    now, send, ret, throw in H.
  destruct (get_prop user (js "id")) as [uid|]; [|discriminate H].
  destruct (doc_path gid) as [p|] eqn:Ep; [|not_200 H].
  run_simpl H.
  destruct p as [|k [|k2 p]]; cbn [lookup_path] in H; [not_200 H| |not_200 H].
  destruct (assoc k (w_goals w)) as [d|] eqn:Ha; [|not_200 H].
  destruct (strict_eqb (field d (js "userId")) uid); [|not_200 H].
  destruct (forallb _ _); [|not_200 H].
  run_simpl H. rewrite Ha in H. injection H as <- <-.
  eexists k, d, _. split; [reflexivity|]. split; [exact Ha|].
  cbn [w_goals w_users log_op set_coll].
  rewrite assoc_update_id_same, Ha. split; [reflexivity|].
  split; [apply field_merge_other; vm_compute; intuition discriminate|].
  split; [apply field_merge_other; vm_compute; intuition discriminate|].
  split; [intros f Hf; apply field_merge_other; exact Hf|].
  split; [|reflexivity].
  intros id' Hne. apply assoc_update_id_other. exact Hne.
Qed.

Definition goal_g1 : doc :=
  [(js "name", JStr (js "Car")); (js "targetAmount", JNum 5000); (js "savedAmount", JNum 100);
   (js "category", JStr (js "Travel")); (js "userId", JStr (js "u1"));
   (js "createdAt", JStr t0); (js "updatedAt", JStr t0)].

Definition goal_g2 : doc :=
  [(js "name", JStr (js "House")); (js "targetAmount", JNum 90000); (js "savedAmount", JNum 10);
   (js "category", JStr (js "Home")); (js "userId", JStr (js "u2"));
   (js "createdAt", JStr t0); (js "updatedAt", JStr t0)].

Definition bob : doc :=
  [(js "username", JStr (js "bob")); (js "password", JStr (js "pw2")); (js "role", JStr (js "user"))].

Definition alice_record : doc :=
  [(js "username", JStr (js "alice")); (js "password", JStr (js "pw1")); (js "role", JStr (js "user"))].

(** Two users, each with one goal. *)
Definition w_two : world :=
  mkWorld [(js "u1", alice_record); (js "u2", bob)]
          [(js "g1", goal_g1); (js "g2", goal_g2)] clock [].

Definition goal_update_body : body :=
  [(js "name", JStr (js "Car")); (js "targetAmount", JNum 6000); (js "savedAmount", JNum 200);
   (js "category", JStr (js "Travel"))].

Lemma put_goals_id_frame_witness :
  exists k d d',
    doc_path (js "g1") = Some [k] /\
    assoc k (w_goals w_two) = Some d /\
    assoc k (w_goals (snd (Server.put_goals_id (JObj alice) (js "g1") goal_update_body w_two)))
      = Some d' /\
    field d' (js "userId") = field d (js "userId") /\
    field d' (js "createdAt") = field d (js "createdAt") /\
    (forall f, ~ In f put_written_fields -> field d' f = field d f) /\
    (forall id', id' <> k ->
       assoc id' (w_goals (snd (Server.put_goals_id (JObj alice) (js "g1") goal_update_body w_two)))
       = assoc id' (w_goals w_two)) /\
    w_users (snd (Server.put_goals_id (JObj alice) (js "g1") goal_update_body w_two)) = w_users w_two.
Proof.
  apply (put_goals_id_frame (JObj alice) (js "g1") goal_update_body w_two
           (mkResp 200 (RText "Goal updated successfully."))).
  - vm_compute. reflexivity.
  - reflexivity.
Defined.

(** ** C2: another user's goal, or a missing one, is not mutated *)

(** C2. When an authenticated caller with identifier [uid] sends
    PUT /goals/:id or DELETE /goals/:id, and [collection('goals').doc(id)]
    refuses the identifier (it has ['//'] in it, or an even number of
    non-empty segments, as [a/b]: Express decodes [%2F] in [:id]), the
    answer is 500; when it designates a document that is not a stored goal,
    or a goal whose [userId] is not [=== uid], the answer is 403. Either way
    both collections are unchanged. *)
Theorem goal_mutation_refused : forall user uid gid b w,
  get_prop user (js "id") = Some uid ->
  match doc_path gid with
  | None => True
  | Some p =>
      match lookup_path p (w_goals w) with
      | None => True
      | Some d => strict_eqb (field d (js "userId")) uid = false
      end
  end ->
  (exists r w', Server.put_goals_id user gid b w = (inr r, w') /\
     status r = match doc_path gid with None => 500 | Some _ => 403 end /\
     w_goals w' = w_goals w /\ w_users w' = w_users w) /\
  (exists r w', Server.delete_goals_id user gid w = (inr r, w') /\
     status r = match doc_path gid with None => 500 | Some _ => 403 end /\
     w_goals w' = w_goals w /\ w_users w' = w_users w).
Proof.
  intros user uid gid b w Huid Hown.
  unfold Server.put_goals_id, Server.delete_goals_id, user_id, bind, catch, doc_ref,
    fs_get, send, ret, throw.
  rewrite Huid. revert Hown.
  destruct (doc_path gid) as [p|]; intros Hown.
  - cbn [coll_of log_op w_goals w_users].
    destruct (lookup_path p (w_goals w)) as [d|].
    + rewrite Hown. split; do 2 eexists; split; try reflexivity; auto.
    + split; do 2 eexists; split; try reflexivity; auto.
  - split; do 2 eexists; split; try reflexivity; auto.
Qed.

Lemma goal_mutation_refused_witness :
  (exists r w', Server.put_goals_id (JObj alice) (js "g2") goal_update_body w_two = (inr r, w') /\
     status r = 403 /\ w_goals w' = w_goals w_two /\ w_users w' = w_users w_two) /\
  (exists r w', Server.delete_goals_id (JObj alice) (js "a/b") w_two = (inr r, w') /\
     status r = 500 /\ w_goals w' = w_goals w_two /\ w_users w' = w_users w_two).
Proof.
  split.
  - apply (goal_mutation_refused (JObj alice) (JStr (js "u1")) (js "g2") goal_update_body w_two).
    + reflexivity.
    + vm_compute. reflexivity.
  - apply (goal_mutation_refused (JObj alice) (JStr (js "u1")) (js "a/b") goal_update_body w_two).
    + reflexivity.
    + vm_compute. exact I.
Defined.

(** PUT /goals/a%2Fb: there is no goal [a/b], yet the answer is 500, not
    403 or 404, since [doc('a/b')] throws. *)
Lemma put_goals_bad_path_500 :
  assoc (js "a/b") (w_goals w_two) = None /\
  exists r w', Server.put_goals_id (JObj alice) (js "a/b") goal_update_body w_two = (inr r, w') /\
    status r = 500 /\ w_goals w' = w_goals w_two.
Proof.
  split; [reflexivity|]. do 2 eexists. split; [vm_compute; reflexivity|].
  split; reflexivity.
Qed.

(** ** C8: deleting a user cascades to the user's goals *)











(** ** C6: registering a username twice *)










(** ** C7: login *)

Definition login_body (u p : jsval) : body := [(js "username", u); (js "password", p)].

Lemma post_login_unfold : forall u p w,
  Server.post_login (login_body u p) w =
  catch
    (usersSnapshot <- fs_where CUsers [(js "username", u); (js "password", p)] (Some 1%nat);;
     match usersSnapshot with
     | [] => send 401 "Invalid credentials"
     | (id, data) :: _ =>
         json (JObj [(js "message", JStr (js "Login successful"));
                     (js "token", JStr (createToken [(js "id", JStr id);
                        (js "username", field data (js "username"));
                        (js "role", field data (js "role"))]))])
     end)
    (fun _ => send 500 "Server error during login.") w.
Proof. reflexivity. Qed.






(** ** C5: the token round trip *)

(** For ASCII fields the token decodes back to the user it was made from. *)
Example createToken_decode_ascii :
  decode_token (createToken alice) = Some (JObj alice).
Proof. vm_compute. reflexivity. Qed.

(** A user whose username is "é" (U+00E9). *)
Definition eve : doc :=
  [(js "id", JStr (js "u3")); (js "username", JStr [233]); (js "role", JStr (js "user"))].

(** C5. The token is made from the UTF-8 bytes of the JSON text but decoded
    with [toString('ascii')], which clears the high bit of each byte: the
    username "é" (bytes C3 A9) comes back as "C)", so decoding the token of
    [eve] does not give back [eve]. *)
Lemma createToken_decode_non_ascii :
  decode_token (createToken eve) =
    Some (JObj [(js "id", JStr (js "u3")); (js "username", JStr (js "C)"));
                (js "role", JStr (js "user"))]) /\
  decode_token (createToken eve) <> Some (JObj eve).
Proof. vm_compute. split; [reflexivity | discriminate]. Qed.

(** ** C1: GET /goals *)


(** C1. In src/unnamed/part_000, GET /goals lists every goal of the store:
    alice (id u1) is shown bob's goal g2, whose [userId] is u2. *)
Lemma part000_get_goals_foreign :
  fst (Part000.get_goals (JObj alice) w_two) =
    inr (mkResp 200 (RJsonList [Server.render (js "g1", goal_g1);
                                Server.render (js "g2", goal_g2)])) /\
  field goal_g2 (js "userId") <> JStr (js "u1").
Proof. split; [reflexivity | vm_compute; discriminate]. Qed.

(** The same request in src/server.js lists alice's goal only. *)
Example server_get_goals_alice :
  fst (Server.get_goals (JObj alice) w_two) =
    inr (mkResp 200 (RJsonList [Server.render (js "g1", goal_g1)])).
Proof. vm_compute. reflexivity. Qed.

(** * Further properties of the code *)

(** ** The token codec on ASCII data *)

Lemma lor_shiftl_add : forall x y k, 0 <= k -> 0 <= y < 2 ^ k -> 0 <= x ->
  Z.lor (Z.shiftl x k) y = x * 2 ^ k + y.
Proof.
  intros x y k Hk Hy Hx.
  assert (Hd : Z.land (Z.shiftl x k) y = 0).
  { apply Z.bits_inj'. intros n Hn. rewrite Z.land_spec, Z.bits_0, Z.shiftl_spec by lia.
    destruct (Z.ltb_spec n k).
    - rewrite Z.testbit_neg_r by lia. reflexivity.
    - destruct (Z.eq_dec y 0) as [->|Hy0]; [rewrite Z.bits_0; apply andb_false_r|].
      rewrite (Z.bits_above_log2 y n); [apply andb_false_r | lia |].
      apply Z.log2_lt_pow2; [lia|].
      apply Z.lt_le_trans with (2 ^ k); [lia | apply Z.pow_le_mono_r; lia]. }
  rewrite <- Z.lxor_lor by exact Hd. rewrite <- Z.add_nocarry_lxor by exact Hd.
  rewrite Z.shiftl_mul_pow2 by lia. reflexivity.
Qed.

Lemma land_63 : forall x, Z.land x 63 = x mod 64.
Proof. intros x. change 63 with (Z.ones 6). apply Z.land_ones. lia. Qed.

Lemma land_15 : forall x, Z.land x 15 = x mod 16.
Proof. intros x. change 15 with (Z.ones 4). apply Z.land_ones. lia. Qed.

Lemma land_3 : forall x, Z.land x 3 = x mod 4.
Proof. intros x. change 3 with (Z.ones 2). apply Z.land_ones. lia. Qed.

Lemma unb64_b64_char : forall v, 0 <= v < 64 -> unb64 (b64_char v) = Some v.
Proof.
  intros v Hv. unfold b64_char, unb64.
  destruct (Z.ltb_spec v 26).
  { replace ((65 <=? 65 + v) && (65 + v <=? 90)) with true by (symmetry; apply andb_true_iff; lia).
    f_equal. lia. }
  destruct (Z.ltb_spec v 52).
  { replace ((65 <=? 71 + v) && (71 + v <=? 90)) with false by (symmetry; apply andb_false_iff; lia).
    replace ((97 <=? 71 + v) && (71 + v <=? 122)) with true by (symmetry; apply andb_true_iff; lia).
    f_equal. lia. }
  destruct (Z.ltb_spec v 62).
  { replace ((65 <=? v - 4) && (v - 4 <=? 90)) with false by (symmetry; apply andb_false_iff; lia).
    replace ((97 <=? v - 4) && (v - 4 <=? 122)) with false by (symmetry; apply andb_false_iff; lia).
    replace ((48 <=? v - 4) && (v - 4 <=? 57)) with true by (symmetry; apply andb_true_iff; lia).
    f_equal. lia. }
  destruct (Z.eqb_spec v 62); [subst; reflexivity|].
  assert (v = 63) by lia. subst. reflexivity.
Qed.

Lemma b64_char_range : forall v, 0 <= v < 64 ->
  b64_char v <> 61 /\ b64_char v <> 32 /\ 0 <= b64_char v < 128.
Proof.
  intros v Hv. unfold b64_char.
  destruct (Z.ltb_spec v 26); [lia|].
  destruct (Z.ltb_spec v 52); [lia|].
  destruct (Z.ltb_spec v 62); [lia|].
  destruct (Z.eqb_spec v 62); lia.
Qed.

Lemma sextets_b64_char : forall v r, 0 <= v < 64 ->
  sextets (b64_char v :: r) = v :: sextets r.
Proof.
  intros v r Hv. simpl. destruct (b64_char_range v Hv) as [H61 _].
  rewrite (proj2 (Z.eqb_neq _ _) H61), unb64_b64_char by exact Hv. reflexivity.
Qed.

Lemma shiftr_div : forall x k, 0 <= k -> Z.shiftr x k = x / 2 ^ k.
Proof. intros. apply Z.shiftr_div_pow2. assumption. Qed.

Lemma n_arith : forall a b c, 0 <= a < 256 -> 0 <= b < 256 -> 0 <= c < 256 ->
  Z.lor (Z.shiftl a 16) (Z.lor (Z.shiftl b 8) c) = a * 65536 + b * 256 + c.
Proof.
  intros a b c Ha Hb Hc.
  rewrite (lor_shiftl_add b c 8) by (simpl; lia).
  rewrite (lor_shiftl_add a (b * 2 ^ 8 + c) 16) by (simpl; lia).
  simpl. lia.
Qed.
Lemma group3 : forall a b c n, 0 <= a < 256 -> 0 <= b < 256 -> 0 <= c < 256 ->
  n = Z.lor (Z.shiftl a 16) (Z.lor (Z.shiftl b 8) c) ->
  Z.lor (Z.shiftl (Z.shiftr n 18) 2) (Z.shiftr (Z.land (Z.shiftr n 12) 63) 4) = a /\
  Z.lor (Z.shiftl (Z.land (Z.land (Z.shiftr n 12) 63) 15) 4) (Z.shiftr (Z.land (Z.shiftr n 6) 63) 2) = b /\
  Z.lor (Z.shiftl (Z.land (Z.land (Z.shiftr n 6) 63) 3) 6) (Z.land n 63) = c.
Proof.
  intros a b c n Ha Hb Hc En. subst n. rewrite n_arith by assumption.
  rewrite !land_63, !land_15, !land_3, !shiftr_div by lia.
  assert (H1 : (a * 65536 + b * 256 + c) / 2 ^ 18 = a / 4)
    by (simpl; Z.div_mod_to_equations; lia).
  assert (H2 : (a * 65536 + b * 256 + c) / 2 ^ 12 mod 64 = a mod 4 * 16 + b / 16)
    by (simpl; Z.div_mod_to_equations; lia).
  assert (H3 : (a * 65536 + b * 256 + c) / 2 ^ 6 mod 64 = b mod 16 * 4 + c / 64)
    by (simpl; Z.div_mod_to_equations; lia).
  assert (H4 : (a * 65536 + b * 256 + c) mod 64 = c mod 64)
    by (simpl; Z.div_mod_to_equations; lia).
  rewrite H1, H2, H3, H4.
  assert (H5 : (a mod 4 * 16 + b / 16) / 2 ^ 4 = a mod 4)
    by (simpl; Z.div_mod_to_equations; lia).
  assert (H6 : (a mod 4 * 16 + b / 16) mod 16 = b / 16)
    by (Z.div_mod_to_equations; lia).
  assert (H7 : (b mod 16 * 4 + c / 64) / 2 ^ 2 = b mod 16)
    by (simpl; Z.div_mod_to_equations; lia).
  assert (H8 : (b mod 16 * 4 + c / 64) mod 4 = c / 64)
    by (Z.div_mod_to_equations; lia).
  rewrite H5, H6, H7, H8.
  rewrite !lor_shiftl_add by (simpl; Z.div_mod_to_equations; lia).
  simpl Z.pow.
  repeat split; Z.div_mod_to_equations; lia.
Qed.

Lemma top_sextet_range : forall a b c, 0 <= a < 256 -> 0 <= b < 256 -> 0 <= c < 256 ->
  0 <= Z.shiftr (Z.lor (Z.shiftl a 16) (Z.lor (Z.shiftl b 8) c)) 18 < 64.
Proof.
  intros a b c Ha Hb Hc. rewrite n_arith, shiftr_div by lia. simpl Z.pow.
  Z.div_mod_to_equations. lia.
Qed.

Lemma land_63_range : forall x, 0 <= Z.land x 63 < 64.
Proof. intros x. rewrite land_63. apply Z.mod_pos_bound. lia. Qed.

Lemma sextets_to_bytes_4 : forall v1 v2 v3 v4 r,
  sextets_to_bytes (v1 :: v2 :: v3 :: v4 :: r) = sextets_to_bytes [v1; v2; v3; v4] ++ sextets_to_bytes r.
Proof. intros. cbn [sextets_to_bytes]. rewrite app_nil_r. reflexivity. Qed.

(** Bytes, as a [Buffer] holds them. *)
Definition is_bytes (bs : list Z) : bool := forallb (fun b => (0 <=? b) && (b <? 256)) bs.

(** Code units below 128. *)
Definition is_ascii (s : jstr) : bool := forallb (fun c => (0 <=? c) && (c <? 128)) s.

Lemma b64_decode_encode : forall bs, is_bytes bs = true -> b64_decode (b64_encode bs) = bs.
Proof.
  fix IH 1. intros [|a [|b [|c t]]] H.
  - reflexivity.
  - cbn [is_bytes forallb] in H. rewrite !andb_true_iff, !Z.leb_le, !Z.ltb_lt in H.
    destruct H as [Ha _].
    unfold b64_decode. cbn [b64_encode].
    replace (Z.shiftl a 16) with (Z.lor (Z.shiftl a 16) (Z.lor (Z.shiftl 0 8) 0))
      by (simpl; apply Z.lor_0_r).
    pose proof (top_sextet_range a 0 0 Ha ltac:(lia) ltac:(lia)) as R1.
    remember (Z.lor (Z.shiftl a 16) (Z.lor (Z.shiftl 0 8) 0)) as n eqn:En.
    destruct (group3 a 0 0 n Ha ltac:(lia) ltac:(lia) En) as [G1 _].
    rewrite (sextets_b64_char (Z.shiftr n 18) _ R1),
      (sextets_b64_char (Z.land (Z.shiftr n 12) 63) _ (land_63_range _)).
    cbn [sextets sextets_to_bytes Z.eqb Pos.eqb]. rewrite G1. reflexivity.
  - cbn [is_bytes forallb] in H. rewrite !andb_true_iff, !Z.leb_le, !Z.ltb_lt in H.
    destruct H as [Ha [Hb _]].
    unfold b64_decode. cbn [b64_encode].
    rewrite <- (Z.lor_0_r (Z.shiftl b 8)).
    pose proof (top_sextet_range a b 0 Ha Hb ltac:(lia)) as R1.
    remember (Z.lor (Z.shiftl a 16) (Z.lor (Z.shiftl b 8) 0)) as n eqn:En.
    destruct (group3 a b 0 n Ha Hb ltac:(lia) En) as [G1 [G2 _]].
    rewrite (sextets_b64_char (Z.shiftr n 18) _ R1),
      (sextets_b64_char (Z.land (Z.shiftr n 12) 63) _ (land_63_range _)),
      (sextets_b64_char (Z.land (Z.shiftr n 6) 63) _ (land_63_range _)).
    cbn [sextets sextets_to_bytes Z.eqb Pos.eqb]. rewrite G1, G2. reflexivity.
  - pose proof H as Ht. cbn [is_bytes forallb] in H, Ht.
    rewrite !andb_true_iff, !Z.leb_le, !Z.ltb_lt in H.
    destruct H as [Ha [Hb [Hc _]]]. apply andb_true_iff in Ht as [_ Ht].
    apply andb_true_iff in Ht as [_ Ht]. apply andb_true_iff in Ht as [_ Ht].
    unfold b64_decode. cbn [b64_encode app].
    pose proof (top_sextet_range a b c Ha Hb Hc) as R1.
    remember (Z.lor (Z.shiftl a 16) (Z.lor (Z.shiftl b 8) c)) as n eqn:En.
    destruct (group3 a b c n Ha Hb Hc En) as [G1 [G2 G3]].
    rewrite (sextets_b64_char (Z.shiftr n 18) _ R1),
      (sextets_b64_char (Z.land (Z.shiftr n 12) 63) _ (land_63_range _)),
      (sextets_b64_char (Z.land (Z.shiftr n 6) 63) _ (land_63_range _)),
      (sextets_b64_char (Z.land n 63) _ (land_63_range _)).
    rewrite sextets_to_bytes_4. cbn [sextets_to_bytes app]. rewrite G1, G2, G3.
    fold (b64_decode (b64_encode t)). rewrite (IH t Ht). reflexivity.
Qed.

Lemma is_ascii_cons : forall c s,
  is_ascii (c :: s) = true <-> 0 <= c < 128 /\ is_ascii s = true.
Proof.
  intros c s. unfold is_ascii. cbn [forallb].
  rewrite andb_true_iff, andb_true_iff, Z.leb_le, Z.ltb_lt. tauto.
Qed.

Lemma is_ascii_app : forall s t,
  is_ascii (s ++ t) = is_ascii s && is_ascii t.
Proof. intros. unfold is_ascii. apply forallb_app. Qed.

Lemma is_ascii_bytes : forall s, is_ascii s = true -> is_bytes s = true.
Proof.
  induction s as [|c s IH]; intros H; [reflexivity|].
  apply is_ascii_cons in H as [Hc Hs]. cbn [is_bytes forallb].
  apply andb_true_iff. split; [apply andb_true_iff; rewrite Z.leb_le, Z.ltb_lt; lia|].
  apply IH. exact Hs.
Qed.

Lemma utf8_encode_ascii : forall s, is_ascii s = true -> utf8_encode s = s.
Proof.
  induction s as [|c s IH]; intros H; [reflexivity|].
  apply is_ascii_cons in H as [Hc Hs]. cbn [utf8_encode].
  replace (c <? 128) with true by (symmetry; apply Z.ltb_lt; lia).
  rewrite IH by exact Hs. reflexivity.
Qed.

Lemma ascii_decode_ascii : forall s, is_ascii s = true -> ascii_decode s = s.
Proof.
  induction s as [|c s IH]; intros H; [reflexivity|].
  apply is_ascii_cons in H as [Hc Hs]. unfold ascii_decode in *. cbn [map].
  rewrite IH by exact Hs. f_equal.
  change 127 with (Z.ones 7). rewrite Z.land_ones by lia. apply Z.mod_small. lia.
Qed.

(** A statement about each of the first [n] code units, checked one by one. *)
Lemma Z_below_cases : forall (P : Z -> Prop) (n : nat),
  (forall k, (k < n)%nat -> P (Z.of_nat k)) -> forall c, 0 <= c < Z.of_nat n -> P c.
Proof.
  intros P n H c Hc. rewrite <- (Z2Nat.id c) by lia. apply H. lia.
Qed.

Lemma Z_below_forallb : forall (f : Z -> bool) (n : nat),
  forallb f (map Z.of_nat (seq 0 n)) = true -> forall c, 0 <= c < Z.of_nat n -> f c = true.
Proof.
  intros f n H c Hc. rewrite forallb_forall in H. apply H.
  apply in_map_iff. exists (Z.to_nat c). split; [apply Z2Nat.id; lia|].
  apply in_seq. lia.
Qed.

Lemma quote_unit_ascii : forall c, 0 <= c < 128 -> is_ascii (quote_unit c) = true.
Proof.
  apply (Z_below_forallb (fun c => is_ascii (quote_unit c)) 128). vm_compute. reflexivity.
Qed.

Lemma quote_units_ascii : forall s, is_ascii s = true -> quote_units s = flat_map quote_unit s.
Proof.
  induction s as [|c s IH]; intros H; [reflexivity|].
  apply is_ascii_cons in H as [Hc Hs]. cbn [quote_units flat_map].
  replace (is_high c) with false by (symmetry; unfold is_high; apply andb_false_iff; left; apply Z.leb_gt; lia).
  replace (is_low c) with false by (symmetry; unfold is_low; apply andb_false_iff; left; apply Z.leb_gt; lia).
  rewrite IH by exact Hs. reflexivity.
Qed.

Lemma quote_ascii : forall s, is_ascii s = true -> is_ascii (quote s) = true.
Proof.
  intros s H. unfold quote. rewrite quote_units_ascii by exact H.
  apply is_ascii_cons. split; [lia|]. rewrite is_ascii_app. apply andb_true_iff. split; [|reflexivity].
  induction s as [|c s IH]; [reflexivity|].
  apply is_ascii_cons in H as [Hc Hs]. cbn [flat_map]. rewrite is_ascii_app, quote_unit_ascii by exact Hc.
  apply IH. exact Hs.
Qed.

Lemma parse_str_quote_unit : forall c, 0 <= c < 128 -> forall r,
  parse_str (quote_unit c ++ r) =
  match parse_str r with Some (x, rest) => Some (c :: x, rest) | None => None end.
Proof.
  intros c Hc r.
  destruct (Z.ltb_spec c 32) as [Hlt|Hge].
  - assert (Hc' : 0 <= c < Z.of_nat 32) by (simpl; lia).
    revert r. pattern c. apply (Z_below_cases _ 32); [|exact Hc']. intros k Hk r.
    do 32 (destruct k as [|k]; [reflexivity|]). lia.
  - destruct (Z.eqb_spec c 34) as [->|H34]; [reflexivity|].
    destruct (Z.eqb_spec c 92) as [->|H92]; [reflexivity|].
    unfold quote_unit.
    rewrite (proj2 (Z.eqb_neq _ _) H34), (proj2 (Z.eqb_neq _ _) H92).
    rewrite (proj2 (Z.eqb_neq c 8)), (proj2 (Z.eqb_neq c 12)), (proj2 (Z.eqb_neq c 10)),
      (proj2 (Z.eqb_neq c 13)), (proj2 (Z.eqb_neq c 9)) by lia.
    replace (c <? 32) with false by (symmetry; apply Z.ltb_ge; lia).
    cbn [app parse_str].
    rewrite (proj2 (Z.eqb_neq _ _) H34), (proj2 (Z.eqb_neq _ _) H92).
    replace (c <? 32) with false by (symmetry; apply Z.ltb_ge; lia).
    reflexivity.
Qed.

(** The body of a quoted ASCII string reads back as the string. *)
Lemma parse_str_quote : forall s rest, is_ascii s = true ->
  parse_str ((quote_units s ++ [34]) ++ rest) = Some (s, rest).
Proof.
  intros s rest H. rewrite quote_units_ascii by exact H. rewrite <- app_assoc.
  induction s as [|c s IH]; [reflexivity|].
  apply is_ascii_cons in H as [Hc Hs]. cbn [flat_map]. rewrite <- app_assoc.
  rewrite parse_str_quote_unit by exact Hc. rewrite IH by exact Hs. reflexivity.
Qed.

(** The text [createToken] encodes, for string fields. *)
Definition token_text (i n r : jstr) : jstr :=
  123 :: quote (js "id") ++ 58 :: quote i ++ 44 :: quote (js "username") ++ 58 :: quote n
  ++ 44 :: quote (js "role") ++ 58 :: quote r ++ [125].

Lemma json_text_token : forall i n r,
  json_text (JObj [(js "id", JStr i); (js "username", JStr n); (js "role", JStr r)])
  = token_text i n r.
Proof. intros. unfold json_text, token_text. cbn [stringify app]. reflexivity. Qed.

Lemma parse_token_text : forall i n r f,
  is_ascii i = true -> is_ascii n = true -> is_ascii r = true ->
  parse_value (S (S (S (S (S f))))) (token_text i n r)
  = Some (JObj [(js "id", JStr i); (js "username", JStr n); (js "role", JStr r)], []).
Proof.
  intros i n r f Hi Hn Hr. unfold token_text, quote.
  simpl. rewrite (parse_str_quote i) by exact Hi.
  simpl. rewrite (parse_str_quote n) by exact Hn.
  simpl. rewrite (parse_str_quote r) by exact Hr.
  simpl. reflexivity.
Qed.

Lemma token_text_ascii : forall i n r,
  is_ascii i = true -> is_ascii n = true -> is_ascii r = true ->
  is_ascii (token_text i n r) = true.
Proof.
  intros i n r Hi Hn Hr. unfold token_text.
  repeat first [rewrite is_ascii_app | rewrite andb_true_iff | rewrite is_ascii_cons].
  repeat split; try lia; try reflexivity; apply quote_ascii; assumption.
Qed.


(** ** The authentication gate *)

Lemma split_on_app_sep : forall sep p t, ~ In sep p -> ~ In sep t ->
  split_on sep (p ++ sep :: t) = [p; t].
Proof.
  intros sep. induction p as [|c p IH]; intros t Hp Ht.
  - cbn [app split_on]. rewrite Z.eqb_refl, split_on_no_sep by exact Ht. reflexivity.
  - cbn [app split_on]. rewrite (proj2 (Z.eqb_neq c sep)) by (intros ->; apply Hp; left; reflexivity).
    rewrite IH by (try (intros Hi; apply Hp; right; exact Hi); exact Ht). reflexivity.
Qed.

(** [authHeader.split(' ')[1]] of ["Bearer " + token]. *)
Lemma token_of_bearer : forall t, ~ In 32 t -> token_of_header (js "Bearer " ++ t) = JStr t.
Proof.
  intros t Ht. change (js "Bearer " ++ t) with (js "Bearer" ++ 32 :: t).
  unfold token_of_header. rewrite split_on_app_sep by (try exact Ht; simpl; intuition lia).
  reflexivity.
Qed.

Lemma b64_char_not_space : forall v, 0 <= v -> b64_char v <> 32.
Proof.
  intros v Hv. unfold b64_char.
  destruct (Z.ltb_spec v 26); [lia|].
  destruct (Z.ltb_spec v 52); [lia|].
  destruct (Z.ltb_spec v 62); [lia|].
  destruct (Z.eqb_spec v 62); lia.
Qed.

Lemma b64_encode_no_space : forall bs, is_bytes bs = true -> ~ In 32 (b64_encode bs).
Proof.
  assert (Hn : forall a b c, 0 <= a -> 0 <= b -> 0 <= c ->
            0 <= Z.lor (Z.shiftl a 16) (Z.lor (Z.shiftl b 8) c)).
  { intros a b c Ha Hb Hc. apply Z.lor_nonneg. split; [apply Z.shiftl_nonneg; exact Ha|].
    apply Z.lor_nonneg. split; [apply Z.shiftl_nonneg; exact Hb|exact Hc]. }
  assert (Hs : forall n k, 0 <= n -> b64_char (Z.shiftr n k) <> 32)
    by (intros n k H; apply b64_char_not_space, Z.shiftr_nonneg; exact H).
  assert (Hl : forall x, b64_char (Z.land x 63) <> 32)
    by (intros x; apply b64_char_not_space, land_63_range).
  fix IH 1. intros [|a [|b [|c t]]] H; cbn [b64_encode app In]; [tauto| | |].
  - cbn [is_bytes forallb] in H. rewrite !andb_true_iff, !Z.leb_le, !Z.ltb_lt in H.
    destruct H as [Ha _].
    intros [E|[E|[E|[E|[]]]]]; try lia.
    + revert E. apply Hs, Z.shiftl_nonneg. lia.
    + revert E. apply Hl.
  - cbn [is_bytes forallb] in H. rewrite !andb_true_iff, !Z.leb_le, !Z.ltb_lt in H.
    destruct H as [Ha [Hb _]].
    assert (0 <= Z.lor (Z.shiftl a 16) (Z.shiftl b 8)).
    { apply Z.lor_nonneg. split; apply Z.shiftl_nonneg; lia. }
    intros [E|[E|[E|[E|[]]]]]; try lia.
    + revert E. apply Hs. assumption.
    + revert E. apply Hl.
    + revert E. apply Hl.
  - pose proof H as Ht. cbn [is_bytes forallb] in H, Ht.
    rewrite !andb_true_iff, !Z.leb_le, !Z.ltb_lt in H.
    destruct H as [Ha [Hb [Hc _]]]. apply andb_true_iff in Ht as [_ Ht].
    apply andb_true_iff in Ht as [_ Ht]. apply andb_true_iff in Ht as [_ Ht].
    intros [E|[E|[E|[E|E]]]].
    + revert E. apply Hs, Hn; lia.
    + revert E. apply Hl.
    + revert E. apply Hl.
    + revert E. apply Hl.
    + exact (IH t Ht E).
Qed.

Lemma createToken_strings : forall i n r,
  createToken [(js "id", JStr i); (js "username", JStr n); (js "role", JStr r)]
  = b64_encode (utf8_encode (token_text i n r)).
Proof. intros. rewrite <- json_text_token. reflexivity. Qed.

(** A token made by [createToken] from ASCII strings holds no space. *)
Lemma createToken_no_space : forall i n r,
  is_ascii i = true -> is_ascii n = true -> is_ascii r = true ->
  ~ In 32 (createToken [(js "id", JStr i); (js "username", JStr n); (js "role", JStr r)]).
Proof.
  intros i n r Hi Hn Hr. pose proof (token_text_ascii i n r Hi Hn Hr) as A.
  rewrite createToken_strings, (utf8_encode_ascii _ A).
  apply b64_encode_no_space, is_ascii_bytes, A.
Qed.

Lemma decode_token_strings : forall i n r,
  is_ascii i = true -> is_ascii n = true -> is_ascii r = true ->
  decode_token (createToken [(js "id", JStr i); (js "username", JStr n); (js "role", JStr r)])
  = Some (JObj [(js "id", JStr i); (js "username", JStr n); (js "role", JStr r)]).
Proof.
  intros i n r Hi Hn Hr.
  pose proof (token_text_ascii i n r Hi Hn Hr) as A.
  unfold decode_token. rewrite createToken_strings.
  rewrite (utf8_encode_ascii _ A), (b64_decode_encode _ (is_ascii_bytes _ A)),
    (ascii_decode_ascii _ A).
  unfold json_parse.
  destruct (List.length (token_text i n r)) as [|[|[|[|f]]]] eqn:EL;
    try (unfold token_text in EL; simpl in EL; discriminate).
  rewrite parse_token_text by assumption. reflexivity.
Qed.

(** X1. [verifyToken]'s decoding inverts [createToken] for a user whose
    [id], [username] and [role] are strings of ASCII code units: the token
    decodes to the object [{id, username, role}]. *)
Theorem createToken_decode_ascii_roundtrip : forall user i n r,
  field user (js "id") = JStr i -> field user (js "username") = JStr n ->
  field user (js "role") = JStr r ->
  is_ascii i = true -> is_ascii n = true -> is_ascii r = true ->
  decode_token (createToken user)
  = Some (JObj [(js "id", JStr i); (js "username", JStr n); (js "role", JStr r)]).
Proof.
  intros user i n r Ei En Er Hi Hn Hr.
  assert (E : createToken user
              = createToken [(js "id", JStr i); (js "username", JStr n); (js "role", JStr r)])
    by (unfold createToken; rewrite Ei, En, Er; reflexivity).
  rewrite E. apply decode_token_strings; assumption.
Qed.

Lemma createToken_decode_ascii_roundtrip_witness :
  decode_token (createToken alice)
  = Some (JObj [(js "id", JStr (js "u1")); (js "username", JStr (js "alice"));
                (js "role", JStr (js "user"))]).
Proof. apply createToken_decode_ascii_roundtrip; reflexivity. Defined.

(** [verifyToken] lets the request through when the token decodes to a
    value whose [id] designates an existing user [k]. *)
Lemma verify_accepts : forall decode h w tok decoded i k d,
  token_of_header h = JStr tok -> decode tok = Some decoded ->
  get_prop decoded (js "id") = Some (JStr i) -> doc_path i = Some [k] ->
  assoc k (w_users w) = Some d ->
  verifyToken_with decode (Some h) w = (inr (inr decoded), log_op (DGet CUsers k) w).
Proof.
  intros decode h w tok decoded i k d Ht Hd Hi Hp Ha.
  unfold verifyToken_with. cbv zeta.
  destruct (jstr_eqb h []) eqn:Eh.
  { apply jstr_eqb_eq in Eh. subst h. discriminate Ht. }
  rewrite Ht. cbv beta iota delta [catch bind ret throw doc_ref fs_get send].
  rewrite Hd, Hi, Hp. cbn [coll_of lookup_path]. rewrite Ha. reflexivity.
Qed.

Lemma protect_with_accepts : forall decode h handler w u w1,
  verifyToken_with decode h w = (inr (inr u), w1) ->
  protect_with decode h handler w = handler u w1.
Proof. intros decode h handler w u w1 H. unfold protect_with, bind. rewrite H. reflexivity. Qed.

(** X4. A non-empty [Authorization] header without a space has no token
    part: [verifyToken] answers 401 "Invalid token", the handler does not
    run and the data store is not touched. *)
Theorem protect_header_without_token_401 : forall decode h handler w,
  h <> [] -> ~ In 32 h ->
  protect_with decode (Some h) handler w = (inr (mkResp 401 (RText "Invalid token")), w).
Proof.
  intros decode h handler w Hne Hsp.
  assert (Ht : token_of_header h = JUndef)
    by (unfold token_of_header; rewrite split_on_no_sep by exact Hsp; reflexivity).
  unfold protect_with, verifyToken_with. cbv zeta.
  rewrite (jstr_eqb_neq h []) by exact Hne. rewrite Ht. reflexivity.
Qed.

Lemma protect_header_without_token_401_witness :
  protect_with decode_token (Some (js "Bearer")) get_verify w_two
  = (inr (mkResp 401 (RText "Invalid token")), w_two).
Proof.
  apply protect_header_without_token_401; [discriminate|simpl; intuition lia].
Defined.

(** X3. The token is not signed: whoever knows an [id] that
    [collection('users').doc(id)] resolves to an existing user [k] (for a
    stored identifier, the identifier itself) can build, with [createToken]
    itself, a token carrying role "admin"; it passes [verifyToken] and
    [checkAdmin] whatever role the store holds for that user, and the
    admin-only handler runs on the store as it was (one read logged). *)
Theorem forged_admin_token_passes : forall w id k d n next,
  doc_path id = Some [k] -> assoc k (w_users w) = Some d ->
  is_ascii id = true -> is_ascii n = true ->
  protect (Some (js "Bearer " ++
             createToken [(js "id", JStr id); (js "username", JStr n);
                          (js "role", JStr (js "admin"))]))
          (fun user => checkAdmin user next) w
  = next (log_op (DGet CUsers k) w).
Proof.
  intros w id k d n next Hp Ha Hi Hn.
  pose proof (verify_accepts decode_token _ w _ _ id k d
             (token_of_bearer _ (createToken_no_space id n (js "admin") Hi Hn eq_refl))
             (decode_token_strings id n (js "admin") Hi Hn eq_refl) eq_refl Hp Ha) as V.
  unfold protect. rewrite (protect_with_accepts _ _ _ _ _ _ V). reflexivity.
Qed.

Lemma forged_admin_token_passes_witness :
  protect (Some (js "Bearer " ++
             createToken [(js "id", JStr (js "u1")); (js "username", JStr (js "alice"));
                          (js "role", JStr (js "admin"))]))
          (fun user => checkAdmin user (Server.delete_users_id (js "u2"))) w_two
  = Server.delete_users_id (js "u2") (log_op (DGet CUsers (js "u1")) w_two).
Proof.
  apply (forged_admin_token_passes w_two (js "u1") (js "u1") alice_record); reflexivity.
Defined.

(** X5. An authenticated caller (the token's [id] designates an existing
    user [k]) whose decoded token does not carry role "admin" is refused by
    [checkAdmin] with 403: the admin-only handler does not run and no data
    changes (only the user lookup is logged). *)
Theorem checkAdmin_non_admin_403 : forall decode h w tok fs i k d next,
  token_of_header h = JStr tok -> decode tok = Some (JObj fs) ->
  field fs (js "id") = JStr i -> doc_path i = Some [k] -> assoc k (w_users w) = Some d ->
  strict_eqb (field fs (js "role")) (JStr (js "admin")) = false ->
  protect_with decode (Some h) (fun user => checkAdmin user next) w
  = (inr (mkResp 403 (RText "Forbidden: Insufficient permissions")), log_op (DGet CUsers k) w).
Proof.
  intros decode h w tok fs i k d next Ht Hd Hi Hp Ha Hr.
  rewrite (protect_with_accepts decode (Some h) _ w _ _
             (verify_accepts decode h w tok (JObj fs) i k d Ht Hd ltac:(simpl; rewrite Hi; reflexivity) Hp Ha)).
  unfold checkAdmin. cbn [truthy get_prop andb]. rewrite Hr. reflexivity.
Qed.

Lemma checkAdmin_non_admin_403_witness :
  protect_with decode_token (Some (js "Bearer " ++ createToken alice))
    (fun user => checkAdmin user (Server.delete_users_id (js "u2"))) w_two
  = (inr (mkResp 403 (RText "Forbidden: Insufficient permissions")),
     log_op (DGet CUsers (js "u1")) w_two).
Proof.
  apply (checkAdmin_non_admin_403 decode_token _ w_two (createToken alice) alice (js "u1")
           (js "u1") alice_record); vm_compute; reflexivity.
Defined.

Lemma In_assoc_some : forall {A} k (v : A) l, In (k, v) l -> exists v', assoc k l = Some v'.
Proof.
  intros A k v l. induction l as [|[k' v'] l IH]; intros H; [destruct H|].
  cbn [assoc]. destruct (jstr_eqb k k') eqn:E; [eauto|].
  destruct H as [H|H]; [|exact (IH H)].
  injection H as -> ->. rewrite jstr_eqb_refl in E. discriminate.
Qed.

(** X2. Logging in and then presenting the token: when the first user
    document, in identifier order, whose username and password are [==] to
    the given ones has a string [id] (stored identifiers have no ['/']),
    [username] and [role] of ASCII code units, POST /login answers 200 with a
    token, and GET /verify with the header ["Bearer " + token] answers 200
    with [req.user] equal to [{id, username, role}] of that document. Login
    changes no data. *)
Theorem login_then_verify : forall w u p id data rest n r,
  defined_value u = true -> defined_value p = true ->
  filter (matches [(js "username", u); (js "password", p)]) (w_users w) = (id, data) :: rest ->
  field data (js "username") = JStr n -> field data (js "role") = JStr r ->
  id <> [] -> ~ In 47 id -> is_ascii id = true -> is_ascii n = true -> is_ascii r = true ->
  exists token w1,
    Server.post_login (login_body u p) w =
      (inr (mkResp 200 (RJson (JObj [(js "message", JStr (js "Login successful"));
                                     (js "token", JStr token)]))), w1) /\
    w_users w1 = w_users w /\ w_goals w1 = w_goals w /\
    protect (Some (js "Bearer " ++ token)) get_verify w1 =
      (inr (mkResp 200 (RJson (JObj [(js "message", JStr (js "Token is valid"));
         (js "user", JObj [(js "id", JStr id); (js "username", JStr n); (js "role", JStr r)])]))),
       log_op (DGet CUsers id) w1).
Proof.
  intros w u p id data rest n r Du Dp Hf Hun Hro Hne Hsl Hi Hn Hr.
  assert (Hin : In (id, data) (w_users w)).
  { apply (filter_In (matches [(js "username", u); (js "password", p)])). rewrite Hf. left. reflexivity. }
  destruct (In_assoc_some _ _ _ Hin) as [d Ha].
  exists (createToken [(js "id", JStr id); (js "username", JStr n); (js "role", JStr r)]),
    (log_op (DQuery CUsers [(js "username", u); (js "password", p)]) w).
  split; [|split; [reflexivity|split; [reflexivity|]]].
  - rewrite post_login_unfold. unfold catch, bind, fs_where, json, send, ret.
    cbn [forallb snd]. rewrite Du, Dp. cbn [andb coll_of log_op w_users].
    rewrite Hf. cbn [firstn]. rewrite Hun, Hro. reflexivity.
  - unfold protect.
    rewrite (protect_with_accepts _ _ _ _ _ _
               (verify_accepts decode_token _
                  (log_op (DQuery CUsers [(js "username", u); (js "password", p)]) w) _ _ id id d
                  (token_of_bearer _ (createToken_no_space id n r Hi Hn Hr))
                  (decode_token_strings id n r Hi Hn Hr) eq_refl (doc_path_simple id Hne Hsl) Ha)).
    reflexivity.
Qed.

Lemma login_then_verify_witness :
  exists token w1,
    Server.post_login (login_body (JStr (js "alice")) (JStr (js "pw1"))) w_two =
      (inr (mkResp 200 (RJson (JObj [(js "message", JStr (js "Login successful"));
                                     (js "token", JStr token)]))), w1) /\
    w_users w1 = w_users w_two /\ w_goals w1 = w_goals w_two /\
    protect (Some (js "Bearer " ++ token)) get_verify w1 =
      (inr (mkResp 200 (RJson (JObj [(js "message", JStr (js "Token is valid"));
         (js "user", JObj [(js "id", JStr (js "u1")); (js "username", JStr (js "alice"));
                           (js "role", JStr (js "user"))])]))),
       log_op (DGet CUsers (js "u1")) w1).
Proof.
  apply (login_then_verify w_two _ _ (js "u1") alice_record []); try reflexivity.
  - discriminate.
  - vm_compute. intuition discriminate.
Defined.

(** ** Fresh identifiers *)


(** ** Error and edge behaviour of the routes *)

(** X8. POST /login with no [username] or no [password] in the body does not
    answer 401: the query with an [undefined] value is refused by Firestore,
    so the answer is 500 and nothing is read or changed. *)
Theorem login_missing_field_500 : forall b w,
  field b (js "username") = JUndef \/ field b (js "password") = JUndef ->
  Server.post_login b w = (inr (mkResp 500 (RText "Server error during login.")), w).
Proof.
  intros b w H. unfold Server.post_login, catch, bind, fs_where. cbv zeta.
  cbn [forallb snd].
  destruct H as [H|H]; rewrite H; cbn [defined_value andb];
    [|rewrite andb_false_r]; reflexivity.
Qed.

Lemma login_missing_field_500_witness :
  Server.post_login [(js "username", JStr (js "alice"))] w_two
  = (inr (mkResp 500 (RText "Server error during login.")), w_two).
Proof. apply login_missing_field_500. right. reflexivity. Defined.

(** X9. PUT /goals/:id by the owner of the goal [k] that [doc(id)]
    designates, with one of [name], [targetAmount], [savedAmount],
    [category] missing from the body: the update with an [undefined] field
    is refused by Firestore, the answer is 500 and no data changes; the goal
    read is the only store call. *)
Theorem put_goals_id_missing_field_500 : forall user uid gid k b w d,
  get_prop user (js "id") = Some uid -> doc_path gid = Some [k] ->
  assoc k (w_goals w) = Some d -> strict_eqb (field d (js "userId")) uid = true ->
  field b (js "name") = JUndef \/ field b (js "targetAmount") = JUndef \/
  field b (js "savedAmount") = JUndef \/ field b (js "category") = JUndef ->
  exists w',
    Server.put_goals_id user gid b w = (inr (mkResp 500 (RText "Server error updating goal.")), w') /\
    w_users w' = w_users w /\ w_goals w' = w_goals w /\ w_log w' = w_log w ++ [DGet CGoals k].
Proof.
  intros user uid gid k b w d Hu Hp Ha Ho Hf.
  eexists. split.
  { unfold Server.put_goals_id, user_id, bind, catch, doc_ref, fs_get, now, fs_update,
      send, ret, throw.
    rewrite Hu. cbv beta iota zeta. rewrite Hp.
    cbn [coll_of lookup_path]. rewrite Ha, Ho. cbn [forallb snd].
    destruct Hf as [H|[H|[H|H]]]; rewrite H; cbn [defined_value andb];
      rewrite ?andb_false_r; reflexivity. }
  repeat split.
Qed.

Lemma put_goals_id_missing_field_500_witness :
  exists w',
    Server.put_goals_id (JObj alice) (js "g1") [(js "name", JStr (js "Car"))] w_two
      = (inr (mkResp 500 (RText "Server error updating goal.")), w') /\
    w_users w' = w_users w_two /\ w_goals w' = w_goals w_two /\
    w_log w' = w_log w_two ++ [DGet CGoals (js "g1")].
Proof.
  apply (put_goals_id_missing_field_500 _ (JStr (js "u1")) _ _ _ _ goal_g1);
    [reflexivity|reflexivity|reflexivity|reflexivity|].
  right. left. reflexivity.
Defined.

(** X11. DELETE /goals/:id by the owner of the goal [k] that [doc(id)]
    designates answers 200; afterwards no goal has identifier [k], every
    other goal is still there unchanged, and the users are untouched. *)
Theorem delete_goals_id_owner : forall user uid gid k w d,
  get_prop user (js "id") = Some uid -> doc_path gid = Some [k] ->
  assoc k (w_goals w) = Some d -> strict_eqb (field d (js "userId")) uid = true ->
  exists w',
    Server.delete_goals_id user gid w = (inr (mkResp 200 (RText "Goal deleted successfully.")), w') /\
    assoc k (w_goals w') = None /\
    (forall k' e, k' <> k -> (In (k', e) (w_goals w') <-> In (k', e) (w_goals w))) /\
    w_users w' = w_users w.
Proof.
  intros user uid gid k w d Hu Hp Ha Ho.
  eexists. split.
  { unfold Server.delete_goals_id, user_id, bind, catch, doc_ref, fs_get, fs_delete, send, ret, throw.
    rewrite Hu. cbv beta iota zeta. rewrite Hp.
    cbn [coll_of lookup_path]. rewrite Ha, Ho. reflexivity. }
  cbn [w_goals w_users log_op set_coll coll_of].
  split; [apply assoc_remove_id_same|]. split; [|reflexivity].
  intros k' e Hk. unfold remove_id. rewrite filter_In. cbn [fst].
  rewrite (jstr_eqb_neq k' k) by exact Hk. cbn [negb]. tauto.
Qed.

Lemma delete_goals_id_owner_witness :
  exists w',
    Server.delete_goals_id (JObj alice) (js "g1/") w_two
      = (inr (mkResp 200 (RText "Goal deleted successfully.")), w') /\
    assoc (js "g1") (w_goals w') = None /\
    (forall k' e, k' <> js "g1" -> (In (k', e) (w_goals w') <-> In (k', e) (w_goals w_two))) /\
    w_users w' = w_users w_two.
Proof.
  apply (delete_goals_id_owner _ (JStr (js "u1")) _ _ _ goal_g1);
    [reflexivity|reflexivity|reflexivity|reflexivity].
Defined.

(** ** Composition of the goal routes *)






(** ** DELETE /users/:id, its full effect *)

Lemma filter_remove_id : forall (g : jstr * doc -> bool) i c,
  filter g (remove_id i c) = filter (fun p => negb (jstr_eqb (fst p) i) && g p) c.
Proof.
  intros g i c. unfold remove_id. induction c as [|p c IH]; cbn [filter]; [reflexivity|].
  destruct (negb (jstr_eqb (fst p) i)); cbn [andb filter]; [|exact IH].
  destruct (g p); [f_equal|]; exact IH.
Qed.

Lemma fold_remove_filter : forall ids c,
  fold_left (fun cl id => remove_id id cl) ids c
  = filter (fun p => negb (existsb (jstr_eqb (fst p)) ids)) c.
Proof.
  induction ids as [|i ids IH]; intros c; cbn [fold_left existsb].
  - induction c as [|p c IHc]; cbn [filter negb]; [reflexivity|]. f_equal. exact IHc.
  - rewrite IH. unfold remove_id at 1. fold (remove_id i c). rewrite filter_remove_id.
    apply filter_ext. intros p. rewrite negb_orb. reflexivity.
Qed.

Lemma NoDup_fst_inj : forall (c : coll) p q,
  NoDup (map fst c) -> In p c -> In q c -> fst p = fst q -> p = q.
Proof.
  induction c as [|r c IH]; intros p q Hn Hp Hq E; [destruct Hp|].
  cbn [map] in Hn. apply NoDup_cons_iff in Hn as [Hr Hn].
  destruct Hp as [<-|Hp], Hq as [<-|Hq]; auto.
  - exfalso. apply Hr. rewrite E. apply in_map. exact Hq.
  - exfalso. apply Hr. rewrite <- E. apply in_map. exact Hp.
Qed.

Lemma existsb_ids_filter : forall (m : jstr * doc -> bool) c p,
  NoDup (map fst c) -> In p c ->
  existsb (jstr_eqb (fst p)) (map fst (filter m c)) = m p.
Proof.
  intros m c p Hn Hp. destruct (m p) eqn:E.
  - apply existsb_exists. exists (fst p). split; [|apply jstr_eqb_refl].
    apply in_map. apply filter_In. auto.
  - apply not_true_iff_false. intros H. apply existsb_exists in H as [x [Hx Hx']].
    apply jstr_eqb_eq in Hx'. apply in_map_iff in Hx as [q [Eq Hq]].
    apply filter_In in Hq as [Hq Hmq].
    rewrite (NoDup_fst_inj c q p Hn Hq Hp) in Hmq by congruence. congruence.
Qed.

(** X13. DELETE /users/:id, where goal ids are unique and
    [collection('users').doc(id)] designates the user document [k] (for an
    identifier without ['/'], [k] is the identifier itself; for [u1/] it is
    [u1]): the answer is 200, exactly the goals whose [userId] is [==] to
    the identifier as given are deleted, every other goal stays, and the
    user document [k] is removed. *)
Theorem delete_users_id_effect : forall uid k w,
  doc_path uid = Some [k] -> NoDup (map fst (w_goals w)) ->
  exists w',
    Server.delete_users_id uid w
      = (inr (mkResp 200 (RText "User and associated goals deleted successfully.")), w') /\
    w_goals w' = filter (fun p => negb (matches [(js "userId", JStr uid)] p)) (w_goals w) /\
    w_users w' = remove_id k (w_users w).
Proof.
  intros uid k w Hp Hnd.
  eexists. split.
  { unfold Server.delete_users_id, catch, bind, fs_where, fs_batch_delete, doc_ref,
      fs_delete, send, ret, throw.
    cbn [forallb snd defined_value andb coll_of].
    rewrite Hp. reflexivity. }
  cbn [w_goals w_users log_op set_coll coll_of]. split; [|reflexivity].
  rewrite fold_remove_filter. apply filter_ext_in. intros p Hp'.
  rewrite existsb_ids_filter by assumption. reflexivity.
Qed.

Lemma delete_users_id_effect_witness :
  exists w',
    Server.delete_users_id (js "u1/") w_two
      = (inr (mkResp 200 (RText "User and associated goals deleted successfully.")), w') /\
    w_goals w' = filter (fun p => negb (matches [(js "userId", JStr (js "u1/"))] p)) (w_goals w_two) /\
    w_users w' = remove_id (js "u1") (w_users w_two).
Proof.
  apply delete_users_id_effect; [vm_compute; reflexivity|].
  vm_compute. repeat constructor; vm_compute; intuition discriminate.
Defined.

(** X16. DELETE /users/:id with an identifier that
    [collection('users').doc(id)] refuses (it has ['//'] in it, or an even
    number of non-empty segments, as [a/b]), where goal ids are unique: the
    batch deleting the goals whose [userId] is [==] to the identifier is
    committed first, then [doc(id)] throws and the answer is 500; those
    goals stay deleted and the users are unchanged. *)
Theorem delete_users_bad_path_500 : forall uid w,
  doc_path uid = None -> NoDup (map fst (w_goals w)) ->
  exists w',
    Server.delete_users_id uid w
      = (inr (mkResp 500 (RText "Server error deleting user.")), w') /\
    w_goals w' = filter (fun p => negb (matches [(js "userId", JStr uid)] p)) (w_goals w) /\
    w_users w' = w_users w.
Proof.
  intros uid w Hp Hnd.
  eexists. split.
  { unfold Server.delete_users_id, catch, bind, fs_where, fs_batch_delete, doc_ref,
      fs_delete, send, ret, throw.
    cbn [forallb snd defined_value andb coll_of].
    rewrite Hp. reflexivity. }
  cbn [w_goals w_users log_op set_coll coll_of]. split; [|reflexivity].
  rewrite fold_remove_filter. apply filter_ext_in. intros p Hp'.
  rewrite existsb_ids_filter by assumption. reflexivity.
Qed.

Definition goal_g3 : doc :=
  [(js "name", JStr (js "Boat")); (js "targetAmount", JNum 900); (js "savedAmount", JNum 10);
   (js "category", JStr (js "Travel")); (js "userId", JStr (js "a/b"));
   (js "createdAt", JStr t0); (js "updatedAt", JStr t0)].

(** A store where a goal names the owner [a/b]. *)
Definition w_slash : world :=
  mkWorld [(js "u1", alice_record)] [(js "g1", goal_g1); (js "g3", goal_g3)] clock [].

Lemma delete_users_bad_path_500_witness :
  exists w',
    Server.delete_users_id (js "a/b") w_slash
      = (inr (mkResp 500 (RText "Server error deleting user.")), w') /\
    w_goals w' = filter (fun p => negb (matches [(js "userId", JStr (js "a/b"))] p)) (w_goals w_slash) /\
    w_users w' = w_users w_slash.
Proof.
  apply delete_users_bad_path_500; [vm_compute; reflexivity|].
  vm_compute. repeat constructor; vm_compute; intuition discriminate.
Defined.

(** ** GET /users of src/unnamed/part_000 *)

Lemma user_entries_no_password : forall (us : coll) v,
  In v (map Part000.user_entry us) -> get_prop v (js "password") = Some JUndef.
Proof.
  intros us v Hv. apply in_map_iff in Hv as [p [<- _]]. reflexivity.
Qed.

(** X14. GET /users of src/unnamed/part_000 for a token whose [id]
    designates an existing user [k] and whose role is "admin": the answer is 200 with one entry per stored user,
    in store order, carrying that user's id, and no entry carries a
    password; the collections are not changed. *)
Theorem part000_get_users_admin : forall decode h w tok fs i k d,
  token_of_header h = JStr tok -> decode tok = Some (JObj fs) ->
  field fs (js "id") = JStr i -> doc_path i = Some [k] -> assoc k (w_users w) = Some d ->
  field fs (js "role") = JStr (js "admin") ->
  exists L w',
    Part000.route_get_users decode (Some h) w = (inr (mkResp 200 (RJsonList L)), w') /\
    map (fun v => get_prop v (js "id")) L = map (fun p => Some (JStr (fst p))) (w_users w) /\
    (forall v, In v L -> get_prop v (js "password") = Some JUndef) /\
    w_users w' = w_users w /\ w_goals w' = w_goals w.
Proof.
  intros decode h w tok fs i k d Ht Hd Hi Hp Ha Hr.
  exists (map Part000.user_entry (w_users w)). eexists. split.
  { unfold Part000.route_get_users.
    rewrite (protect_with_accepts decode (Some h) _ w _ _
               (verify_accepts decode h w tok (JObj fs) i k d Ht Hd ltac:(simpl; rewrite Hi; reflexivity) Hp Ha)).
    unfold checkAdmin. cbn [truthy get_prop andb]. rewrite Hr.
    unfold Part000.get_users, catch, bind, fs_all, ret. reflexivity. }
  split; [|split; [apply user_entries_no_password|split; reflexivity]].
  rewrite map_map. apply map_ext. intros p. reflexivity.
Qed.

Definition alice_admin_token : jstr :=
  createToken [(js "id", JStr (js "u1")); (js "username", JStr (js "alice"));
               (js "role", JStr (js "admin"))].

Lemma part000_get_users_admin_witness :
  exists L w',
    Part000.route_get_users decode_token (Some (js "Bearer " ++ alice_admin_token)) w_two
      = (inr (mkResp 200 (RJsonList L)), w') /\
    map (fun v => get_prop v (js "id")) L = map (fun p => Some (JStr (fst p))) (w_users w_two) /\
    (forall v, In v L -> get_prop v (js "password") = Some JUndef) /\
    w_users w' = w_users w_two /\ w_goals w' = w_goals w_two.
Proof.
  apply (part000_get_users_admin decode_token _ w_two alice_admin_token
           [(js "id", JStr (js "u1")); (js "username", JStr (js "alice"));
            (js "role", JStr (js "admin"))] (js "u1") (js "u1") alice_record);
    vm_compute; reflexivity.
Defined.

(** ** Self-registration as administrator *)

Lemma filter_all_false : forall (f : jstr * doc -> bool) c,
  (forall p, In p c -> f p = false) -> filter f c = [].
Proof.
  intros f c H. induction c as [|p c IH]; cbn [filter]; [reflexivity|].
  rewrite (H p) by (left; reflexivity). apply IH. intros q Hq. apply H. right. exact Hq.
Qed.

Lemma filter_insert_single : forall (f : jstr * doc -> bool) id d c,
  (forall p, In p c -> f p = false) -> f (id, d) = true ->
  filter f (insert_by_id id d c) = [(id, d)].
Proof.
  intros f id d c Hc Hd. induction c as [|[k e] c IH]; cbn [insert_by_id].
  - cbn [filter]. rewrite Hd. reflexivity.
  - destruct (id_ltb id k); cbn [filter].
    + rewrite Hd, (Hc (k, e)) by (left; reflexivity). f_equal.
      apply filter_all_false. intros p Hp. apply Hc. right. exact Hp.
    + rewrite (Hc (k, e)) by (left; reflexivity). apply IH.
      intros p Hp. apply Hc. right. exact Hp.
Qed.

Lemma is_ascii_fresh_id : forall c, is_ascii (fresh_id c) = true.
Proof.
  intros c. unfold fresh_id. generalize (S (list_max (map (fun p => List.length (fst p)) c))).
  induction n as [|n IH]; [reflexivity|]. cbn [repeat]. apply is_ascii_cons. split; [lia|exact IH].
Qed.

Lemma fresh_id_nonempty : forall c, fresh_id c <> [].
Proof. intros c. unfold fresh_id. cbn [repeat]. discriminate. Qed.

Lemma fresh_id_no_slash : forall c, ~ In 47 (fresh_id c).
Proof. intros c Hi. unfold fresh_id in Hi. apply repeat_spec in Hi. discriminate. Qed.

(** X15. Anyone can make themselves an administrator: POST /register with a
    free username, a password and [role: "admin"] answers 201 and stores that
    role; POST /login with the same pair then answers 200 with a token, and
    that token passes [checkAdmin]: GET /users of src/unnamed/part_000 answers
    200 with the entries of all stored users. *)
Theorem register_admin_then_list_users : forall n pw w,
  n <> [] -> pw <> [] -> is_ascii n = true ->
  filter (matches [(js "username", JStr n)]) (w_users w) = [] ->
  exists id w1 token w2 w3,
    Server.post_register [(js "username", JStr n); (js "password", JStr pw);
                          (js "role", JStr (js "admin"))] w
      = (inr (mkResp 201 (RText "User registered successfully.")), w1) /\
    In (id, [(js "username", JStr n); (js "password", JStr pw);
             (js "role", JStr (js "admin"))]) (w_users w1) /\
    Server.post_login (login_body (JStr n) (JStr pw)) w1 =
      (inr (mkResp 200 (RJson (JObj [(js "message", JStr (js "Login successful"));
                                     (js "token", JStr token)]))), w2) /\
    w_users w2 = w_users w1 /\
    Part000.route_get_users decode_token (Some (js "Bearer " ++ token)) w2
      = (inr (mkResp 200 (RJsonList (map Part000.user_entry (w_users w2)))), w3).
Proof.
  intros n pw w Hn Hpw Han Hfree.
  set (nu := [(js "username", JStr n); (js "password", JStr pw);
              (js "role", JStr (js "admin"))] : doc).
  set (id := fresh_id (w_users w)).
  set (w1 := log_op (DAdd CUsers id)
               (set_coll CUsers (insert_by_id id nu (w_users w))
                  (log_op (DQuery CUsers [(js "username", JStr n)]) w))).
  set (w2 := log_op (DQuery CUsers [(js "username", JStr n); (js "password", JStr pw)]) w1).
  assert (Hin : In (id, nu) (w_users w2)) by apply In_insert_by_id.
  destruct (In_assoc_some _ _ _ Hin) as [d Ha].
  exists id, w1, (createToken [(js "id", JStr id); (js "username", JStr n);
                              (js "role", JStr (js "admin"))]), w2.
  eexists. split; [|split; [exact Hin|split; [|split; [reflexivity|]]]].
  - unfold Server.post_register, catch, bind, fs_where, fs_add, send, ret.
    change (field nu (js "username")) with (JStr n).
    change (field nu (js "password")) with (JStr pw).
    change (field nu (js "role")) with (JStr (js "admin")).
    cbn [truthy]. rewrite (jstr_eqb_neq n []) by exact Hn.
    rewrite (jstr_eqb_neq pw []) by exact Hpw. cbn [negb orb].
    cbn [forallb snd defined_value andb coll_of log_op w_users].
    rewrite Hfree. cbn [firstn]. reflexivity.
  - rewrite post_login_unfold. unfold catch, bind, fs_where, json, send, ret.
    cbn [forallb snd defined_value andb coll_of log_op w_users].
    unfold w1. cbn [log_op set_coll w_users].
    rewrite filter_insert_single; [reflexivity| |].
    + intros p Hp.
      assert (E : matches [(js "username", JStr n)] p = false).
      { destruct (matches [(js "username", JStr n)] p) eqn:E; [|reflexivity].
        assert (Hf : In p (filter (matches [(js "username", JStr n)]) (w_users w)))
          by (apply filter_In; auto).
        rewrite Hfree in Hf. destruct Hf. }
      unfold matches in *. cbn [forallb fst snd] in *.
      rewrite andb_true_r in E. rewrite E. reflexivity.
    + unfold matches. cbn [forallb fst snd].
      change (field (snd (id, nu)) (js "username")) with (JStr n).
      change (field (snd (id, nu)) (js "password")) with (JStr pw).
      rewrite !fs_eqb_refl. reflexivity.
  - unfold Part000.route_get_users.
    rewrite (protect_with_accepts _ _ _ _ _ _
               (verify_accepts decode_token _ w2 _ _ id id d
                  (token_of_bearer _ (createToken_no_space id n (js "admin")
                                        (is_ascii_fresh_id _) Han eq_refl))
                  (decode_token_strings id n (js "admin") (is_ascii_fresh_id _) Han eq_refl)
                  eq_refl (doc_path_simple id (fresh_id_nonempty _) (fresh_id_no_slash _)) Ha)).
    unfold checkAdmin. cbn [truthy get_prop andb].
    unfold Part000.get_users, catch, bind, fs_all, ret. reflexivity.
Qed.

Lemma register_admin_then_list_users_witness :
  exists id w1 token w2 w3,
    Server.post_register [(js "username", JStr (js "carol")); (js "password", JStr (js "pw3"));
                          (js "role", JStr (js "admin"))] w_two
      = (inr (mkResp 201 (RText "User registered successfully.")), w1) /\
    In (id, [(js "username", JStr (js "carol")); (js "password", JStr (js "pw3"));
             (js "role", JStr (js "admin"))]) (w_users w1) /\
    Server.post_login (login_body (JStr (js "carol")) (JStr (js "pw3"))) w1 =
      (inr (mkResp 200 (RJson (JObj [(js "message", JStr (js "Login successful"));
                                     (js "token", JStr token)]))), w2) /\
    w_users w2 = w_users w1 /\
    Part000.route_get_users decode_token (Some (js "Bearer " ++ token)) w2
      = (inr (mkResp 200 (RJsonList (map Part000.user_entry (w_users w2)))), w3).
Proof.
  apply register_admin_then_list_users; try discriminate; vm_compute; reflexivity.
Defined.
